(** * SpecVault / SteelIntel backend: the retrieve -> generate pipeline

    A shallow embedding of [backend/agent.py], [backend/server.py],
    [backend/mcp_server.py] and the configuration part of
    [backend/ingest.py], with the properties of the citation bookkeeping,
    of error propagation and of start-up configuration.

    Python strings are [string] (one [ascii] per character), dicts with
    string keys are [gmap string _], lists are [list].  The external
    services (similarity index, language model, loaders) are parameters;
    every call to one of them is recorded in a trace of events, so that
    "is invoked" and "is never invoked" are statements about that trace. *)

From Stdlib Require Import String Ascii List ZArith Lia.
From stdpp Require Import base option list strings pretty gmap.

Open Scope string_scope.

(** ** Python strings *)

Module PyStr.

Definition nl : string := String "010"%char EmptyString.
Definition dq : string := String "034"%char EmptyString.

(** [s[:n]] *)
Fixpoint take (n : nat) (s : string) : string :=
  match n, s with
  | S n', String c s' => String c (take n' s')
  | _, _ => EmptyString
  end.

(** [sep.join(l)] *)
Fixpoint join (sep : string) (l : list string) : string :=
  match l with
  | [] => ""
  | [x] => x
  | x :: rest => x +:+ sep +:+ join sep rest
  end.

(** [s * n] *)
Fixpoint repeat (s : string) (n : nat) : string :=
  match n with
  | O => ""
  | S n' => s +:+ repeat s n'
  end.

(** Truthiness of a [str]: [not s] holds of the empty string only. *)
Definition truthy (s : string) : bool :=
  match s with EmptyString => false | String _ _ => true end.



End PyStr.

(** ** Values, exceptions and the effect monad *)

(** Values held in a passage's metadata: the ingestion job writes strings
    ([source], [filename], [ingested_at]) and integers ([page]). *)
Inductive MetaVal :=
| MStr (s : string)
| MInt (z : Z).

(** [str(v)] *)
Definition py_str (v : MetaVal) : string :=
  match v with
  | MStr s => s
  | MInt z => pretty z
  end.

(** A raised exception: its class and [str(e)]. *)
Record PyExc := { exc_type : string; exc_msg : string }.

Inductive Res (A : Type) :=
| Ok (a : A)
| Raise (e : PyExc).
Arguments Ok {A} a.
Arguments Raise {A} e.

Record Document := {
  page_content : string;
  metadata : gmap string MetaVal
}.

Inductive Message :=
| HumanMessage (content : string)
| AIMessage (content : string).

Definition content (m : Message) : string :=
  match m with HumanMessage c => c | AIMessage c => c end.

(** What the program does to the outside world, in order. *)
Inductive Event :=
| EPrint (line : string)
| ESearch (query : string) (k : nat)
| ELlm (prompt : list Message)
| EDemo (query : string)
| EListDocuments
| EConstruct (class : string)
| EMakedirs (dir : string)
| ELoad (dir : string)
| ESplit (pages : nat)
| EUpload (chunks : nat) (index : string)
| EListIndexes
| ECreateIndex (name : string) (dimension : nat) (metric cloud region : string)
| EDescribeIndex (name : string)
| ESleep (seconds : nat).

Definition M (A : Type) : Type := list Event -> Res A * list Event.

Definition ret {A} (a : A) : M A := fun t => (Ok a, t).
Definition raise {A} (e : PyExc) : M A := fun t => (Raise e, t).
Definition bind {A B} (m : M A) (k : A -> M B) : M B :=
  fun t => match m t with
           | (Ok a, t') => k a t'
           | (Raise e, t') => (Raise e, t')
           end.
Definition emit (e : Event) : M unit := fun t => (Ok tt, (t ++ [e])%list).
Definition lift {A} (r : Res A) : M A := fun t => (r, t).
Definition print (line : string) : M unit := emit (EPrint line).

Declare Scope py_scope.
Delimit Scope py_scope with py.
Notation "'do' x <- m ; k" := (bind m (fun x => k))
  (at level 10, x name, m at level 100, k at level 200,
   format "'[v' 'do'  x  <-  m ; '/' k ']'") : py_scope.
Notation "'do_' m ; k" := (bind m (fun _ => k))
  (at level 10, m at level 100, k at level 200,
   format "'[v' 'do_'  m ; '/' k ']'") : py_scope.
Open Scope py_scope.

(** [l[-1]] *)
Definition last_item {A} (l : list A) : M A :=
  match last l with
  | Some x => ret x
  | None => raise {| exc_type := "IndexError"; exc_msg := "list index out of range" |}
  end.

(** ** backend/agent.py *)

Module Agent.

(** [AgentState] and the citation dict built by [retrieve] (the keys of
  [Source]); [document] is whatever the metadata holds. *)
Record Source := {
ref : string;
document : MetaVal;
page : string;
content_preview : string
}.

Record AgentState := {
messages : list Message;
context : string;
sources : list Source
}.

(** The dict a node returns: the keys it sets. *)
Record StateUpdate := {
upd_messages : option (list Message);
upd_context : option string;
upd_sources : option (list Source)
}.

(** The dict returned by [run_agent]. *)
Record AgentResult := {
response : string;
result_sources : list Source
}.

Definition source_ref (i : nat) : string := "[" +:+ pretty (i + 1) +:+ "]".

Definition make_source (i : nat) (doc : Document) : Source :=
{| ref := source_ref i;
   document := default (MStr "Unknown Document") (metadata doc !! "source");
   page := py_str (default (MStr "N/A") (metadata doc !! "page"));
   content_preview :=
     if (200 <? String.length (page_content doc))%nat
     then PyStr.take 200 (page_content doc) +:+ "..."
     else page_content doc |}.

Definition context_entry (i : nat) (doc : Document) : string :=
source_ref i +:+ " " +:+ page_content doc.

(** The body of [for i, doc in enumerate(docs)], from index [i] on, with
  the two lists it appends to. *)
Fixpoint retrieve_loop (i : nat) (docs : list Document)
  (context_with_sources : list string) (srcs : list Source)
  : list string * list Source :=
match docs with
| [] => (context_with_sources, srcs)
| doc :: rest =>
    retrieve_loop (S i) rest
      (context_with_sources ++ [context_entry i doc])%list
      (srcs ++ [make_source i doc])%list
end.

Definition prompt_lines (ctx question : string) : list string :=
[ "You are an expert material science and steel engineer specializing in:";
  "- ASTM steel standards (A106, A53, A333, A516, etc.)";
  "- ASME pressure vessel and piping codes (B31.3, Section VIII)";
  "- API specifications (5L, 5CT, 650)";
  "- NACE corrosion standards (MR0175, SP0169)";
  "";
  "CRITICAL INSTRUCTION: Always cite your sources using [1], [2], etc. reference numbers that correspond to the context provided.";
  "";
  "When answering:";
  "1. Cite the specific standard/document for each claim using [N] references";
  "2. Include exact values (yield strength, chemical composition, hardness limits) when available";
  "3. For compliance questions, state PASS/FAIL with the specific clause/section that applies";
  "4. If information conflicts between sources, note the discrepancy";
  "5. If uncertain, say " +:+ PyStr.dq
    +:+ "Based on [N], but recommend verification with original document"
    +:+ PyStr.dq;
  "";
  "Context (with source references):";
  ctx;
  "";
  "Question: " +:+ question;
  "";
  "Answer with citations:" ].

Definition build_prompt (ctx question : string) : string :=
PyStr.join PyStr.nl (prompt_lines ctx question).

(** ** langgraph's [StateGraph], as far as [agent.py] uses it

  A graph is its named nodes, its edges and its entry point.  [invoke]
  starts at the entry point, runs the current node on the state, writes
  the keys the node returned over the state (the state's keys have no
  reducer, so a returned key replaces the old value), and follows the
  node's outgoing edge until it reaches [END].  A node's exception
  leaves [invoke] at once.  The number of steps is bounded by the
  library's recursion limit (25). *)
Module Graph.

Definition END : string := "__end__".
Definition recursion_limit : nat := 25.

Definition Node : Type := AgentState -> M StateUpdate.

Record StateGraph := {
nodes : list (string * Node);
edges : list (string * string);
entry_point : option string
}.

Definition new : StateGraph :=
{| nodes := []; edges := []; entry_point := None |}.

Definition add_node (name : string) (f : Node) (g : StateGraph) : StateGraph :=
{| nodes := (nodes g ++ [(name, f)])%list;
   edges := edges g; entry_point := entry_point g |}.

Definition set_entry_point (name : string) (g : StateGraph) : StateGraph :=
{| nodes := nodes g; edges := edges g; entry_point := Some name |}.

Definition add_edge (src dst : string) (g : StateGraph) : StateGraph :=
{| nodes := nodes g; edges := (edges g ++ [(src, dst)])%list;
   entry_point := entry_point g |}.

Fixpoint assoc {A} (k : string) (l : list (string * A)) : option A :=
match l with
| [] => None
| (k', v) :: rest => if String.eqb k k' then Some v else assoc k rest
end.

Definition apply_update (s : AgentState) (u : StateUpdate) : AgentState :=
{| messages := default (messages s) (upd_messages u);
   context := default (context s) (upd_context u);
   sources := default (sources s) (upd_sources u) |}.

Fixpoint run (fuel : nat) (g : StateGraph) (current : string)
  (state : AgentState) : M AgentState :=
if String.eqb current END then ret state
else match fuel with
     | O => raise {| exc_type := "GraphRecursionError";
                     exc_msg := "Recursion limit of 25 reached" |}
     | S fuel' =>
         match assoc current (nodes g) with
         | None => raise {| exc_type := "ValueError";
                            exc_msg := "unknown node " +:+ current |}
         | Some f =>
             do u <- f state;
             let state' := apply_update state u in
             match assoc current (edges g) with
             | Some next => run fuel' g next state'
             | None => ret state'
             end
         end
     end.

Definition invoke (g : StateGraph) (inputs : AgentState) : M AgentState :=
match entry_point g with
| Some entry => run recursion_limit g entry inputs
| None => raise {| exc_type := "ValueError";
                   exc_msg := "graph has no entry point" |}
end.

End Graph.

Section Services.

(** [vectorstore.similarity_search] and [llm.invoke]: what the two
  services answer, or the exception they raise. *)
Variable similarity_search : string -> nat -> Res (list Document).
Variable llm_invoke : list Message -> Res Message.

Definition vectorstore_similarity_search (q : string) (k : nat)
  : M (list Document) :=
do_ emit (ESearch q k);
lift (similarity_search q k).

Definition llm_call (msgs : list Message) : M Message :=
do_ emit (ELlm msgs);
lift (llm_invoke msgs).

Definition retrieve (state : AgentState) : M StateUpdate :=
do_ print "--- RETRIEVING ---";
do m <- last_item (messages state);
let last_message := content m in
do docs <- vectorstore_similarity_search last_message 10;
let '(context_with_sources, srcs) := retrieve_loop 0 docs [] [] in
ret {| upd_messages := None;
       upd_context := Some (PyStr.join (PyStr.nl +:+ PyStr.nl) context_with_sources);
       upd_sources := Some srcs |}.

Definition generate (state : AgentState) : M StateUpdate :=
do_ print "--- GENERATING ---";
do m <- last_item (messages state);
let question := content m in
let prompt := build_prompt (context state) question in
do resp <- llm_call [HumanMessage prompt];
ret {| upd_messages := Some [resp];
       upd_context := None;
       upd_sources := None |}.

Definition workflow : Graph.StateGraph :=
Graph.add_edge "generate" Graph.END
  (Graph.add_edge "retrieve" "generate"
    (Graph.set_entry_point "retrieve"
      (Graph.add_node "generate" generate
        (Graph.add_node "retrieve" retrieve Graph.new)))).

(** [app = workflow.compile()]; [app.invoke(inputs)] *)
Definition app_invoke (inputs : AgentState) : M AgentState :=
Graph.invoke workflow inputs.

Definition run_agent (query : string) : M AgentResult :=
let inputs := {| messages := [HumanMessage query];
                 context := "";
                 sources := [] |} in
do result <- app_invoke inputs;
do m <- last_item (messages result);
ret {| response := content m;
       result_sources := sources result |}.

End Services.

End Agent.

(** ** backend/server.py *)

Module Server.

(** The pydantic models [Source] and [ChatResponse]: every field a [str]. *)
Record Source := {
  ref : string;
  document : string;
  page : string;
  content_preview : string
}.

Record ChatResponse := {
  response : string;
  sources : list Source
}.

(** What the endpoint hands to the framework: the response model, or
    the [HTTPException] it raised. *)
Inductive Outcome :=
| Returned (body : ChatResponse)
| HTTPException (status_code : nat) (detail : string).

(** Validation of a [str] field (pydantic 2, which the [json_schema_extra]
    key of the models' [Config] belongs to): a string is kept, an integer
    is refused.  The text of the validation error is abbreviated. *)
Definition validate_str (field : string) (v : MetaVal) : Res string :=
  match v with
  | MStr s => Ok s
  | MInt _ => Raise {| exc_type := "ValidationError";
                       exc_msg := "1 validation error for Source: " +:+ field
                                  +:+ ": Input should be a valid string" |}
  end.

(** The model [Source] built from the keys of a citation dict. *)
Definition Source_of_dict (s : Agent.Source) : Res Source :=
  match validate_str "document" (Agent.document s) with
  | Ok d => Ok {| ref := Agent.ref s; document := d;
                  page := Agent.page s;
                  content_preview := Agent.content_preview s |}
  | Raise e => Raise e
  end.

Fixpoint Sources_of_dicts (l : list Agent.Source) : Res (list Source) :=
  match l with
  | [] => Ok []
  | s :: rest =>
      match Source_of_dict s with
      | Raise e => Raise e
      | Ok s' => match Sources_of_dicts rest with
                 | Raise e => Raise e
                 | Ok rest' => Ok (s' :: rest')
                 end
      end
  end.

Section Services.

Variable similarity_search : string -> nat -> Res (list Document).
Variable llm_invoke : list Message -> Res Message.

(** The body of the [try] block of [chat]. *)
Definition chat_body (query : string) : M ChatResponse :=
  do result <- Agent.run_agent similarity_search llm_invoke query;
  do srcs <- lift (Sources_of_dicts (Agent.result_sources result));
  ret {| response := Agent.response result; sources := srcs |}.

(** [chat]: [except Exception as e] turns whatever the body raised
    into [HTTPException(status_code=500, detail=str(e))]. *)
Definition chat (query : string) (t : list Event) : Outcome * list Event :=
  match chat_body query t with
  | (Ok body, t') => (Returned body, t')
  | (Raise e, t') => (HTTPException 500 (exc_msg e), t')
  end.

(** [health] *)
Definition health : string * string := ("ok", "1.0.0").

End Services.

End Server.

(** ** backend/mcp_server.py *)

Module McpServer.

(** The [arguments] dict of a tool call, with the keys and types of the
    tools' [inputSchema]; a key the caller left out is [None], which is
    where [arguments.get(key, default)] takes its default. *)
Record Arguments := {
  arg_query : option string;
  arg_material : option string;
  arg_standard : option string;
  arg_requirements : option string;
  arg_materials : option (list string);
  arg_properties : option (list string)
}.

Record TextContent := { type : string; text : string }.

Definition source_line (s : Agent.Source) : string :=
  "- " +:+ Agent.ref s +:+ " " +:+ py_str (Agent.document s)
       +:+ " (p. " +:+ Agent.page s +:+ ")" +:+ PyStr.nl.

(** [if sources: output += heading; for source in sources: output += ...] *)
Definition with_sources (output heading : string) (srcs : list Agent.Source)
    : string :=
  match srcs with
  | [] => output
  | _ => fold_left (fun out s => out +:+ source_line s) srcs
           (output +:+ heading +:+ PyStr.nl)
  end.

(** [doc['name']], [doc.get(...)] on an entry of the document list. *)
Definition getitem (d : gmap string MetaVal) (k : string) : M MetaVal :=
  match d !! k with
  | Some v => ret v
  | None => raise {| exc_type := "KeyError"; exc_msg := "'" +:+ k +:+ "'" |}
  end.

Definition placeholder_documents : list (gmap string MetaVal) :=
  let entry (name : string) (pages : Z) : gmap string MetaVal :=
    <["name" := MStr name]> (<["pages" := MInt pages]>
      (<["status" := MStr "indexed"]> ∅)) in
  [ entry "ASTM_A106.pdf" 12%Z; entry "ASTM_A53.pdf" 8%Z;
    entry "NACE_MR0175_ISO15156.pdf" 45%Z;
    entry "AISI_4140_DataSheet.pdf" 4%Z; entry "ASTM_A333.pdf" 10%Z ].

Fixpoint documents_loop (docs : list (gmap string MetaVal)) (output : string)
    : M string :=
  match docs with
  | [] => ret output
  | doc :: rest =>
      do name <- getitem doc "name";
      documents_loop rest
        (output +:+ "- " +:+ py_str name +:+ " ("
           +:+ py_str (default (MStr "N/A") (doc !! "pages")) +:+ " pages) - "
           +:+ py_str (default (MStr "indexed") (doc !! "status")) +:+ PyStr.nl)
  end.

Section Backend.

(** Whether [agent] could be imported outside demo mode. *)
Variable HAS_REAL_BACKEND : bool.
Variable similarity_search : string -> nat -> Res (list Document).
Variable llm_invoke : list Message -> Res Message.
(** [server.get_demo_response], which [mcp_server] imports and the
    server module at hand does not define: the dict it returns for a
    query, with the keys [response] and [sources]. *)
Variable get_demo_response : string -> Res Agent.AgentResult.
(** [vectorstore.list_documents], where the vector store has it. *)
Variable vectorstore_list_documents : option (Res (list (gmap string MetaVal))).

(** [run_agent(query)] with a real backend, [get_demo_response(query)]
    without; both give a dict with [response] and [sources]. *)
Definition answer (query : string) : M Agent.AgentResult :=
  if HAS_REAL_BACKEND
  then Agent.run_agent similarity_search llm_invoke query
  else do_ emit (EDemo query); lift (get_demo_response query).

Definition text_result (output : string) : M (list TextContent) :=
  ret [ {| type := "text"; text := output |} ].

Definition mode : string :=
  if HAS_REAL_BACKEND then "production" else "demo".

Definition connected : string :=
  if HAS_REAL_BACKEND then "Connected" else "Not connected".

Definition call_tool (name : string) (arguments : Arguments)
    : M (list TextContent) :=
  if String.eqb name "query_steel_specs" then
    let query := default "" (arg_query arguments) in
    do result <- answer query;
    let output := "**Response:**" +:+ PyStr.nl +:+ Agent.response result
                  +:+ PyStr.nl +:+ PyStr.nl in
    text_result (with_sources output "**Sources:**" (Agent.result_sources result))
  else if String.eqb name "check_compliance" then
    let material := default "" (arg_material arguments) in
    let standard := default "" (arg_standard arguments) in
    let requirements := default "" (arg_requirements arguments) in
    let query := "Does " +:+ material +:+ " meet " +:+ standard
                 +:+ " requirements" in
    let query := if PyStr.truthy requirements
                 then query +:+ " for " +:+ requirements else query in
    let query := query +:+ "?" in
    do result <- answer query;
    let output := "**Compliance Check: " +:+ material +:+ " vs " +:+ standard
                  +:+ "**" +:+ PyStr.nl +:+ PyStr.nl +:+ Agent.response result
                  +:+ PyStr.nl +:+ PyStr.nl in
    text_result (with_sources output "**Reference Documents:**"
                   (Agent.result_sources result))
  else if String.eqb name "compare_materials" then
    let materials := default [] (arg_materials arguments) in
    let properties := default ["yield strength"; "tensile strength"]
                        (arg_properties arguments) in
    if (length materials <? 2)%nat then
      text_result "Error: Please provide at least 2 materials to compare."
    else
      let materials_str := PyStr.join " and " materials in
      let props_str := match properties with
                       | [] => "properties"
                       | _ => PyStr.join ", " properties
                       end in
      let query := "Compare " +:+ materials_str +:+ " for " +:+ props_str in
      do result <- answer query;
      let output := "**Material Comparison: " +:+ materials_str +:+ "**"
                    +:+ PyStr.nl +:+ PyStr.nl +:+ Agent.response result
                    +:+ PyStr.nl +:+ PyStr.nl in
      text_result (with_sources output "**Sources:**"
                     (Agent.result_sources result))
  else if String.eqb name "list_documents" then
    do docs <- (match HAS_REAL_BACKEND, vectorstore_list_documents with
                | true, Some r => do_ emit EListDocuments; lift r
                | _, _ => ret placeholder_documents
                end);
    do output <- documents_loop docs
                   ("**Indexed Documents:**" +:+ PyStr.nl +:+ PyStr.nl);
    text_result (output +:+ PyStr.nl +:+ "*Mode: " +:+ mode +:+ "*")
  else if String.eqb name "get_health" then
    text_result
      ("**Steel Knowledge Backend Health**" +:+ PyStr.nl +:+ PyStr.nl
       +:+ "- Status: ok" +:+ PyStr.nl
       +:+ "- Version: 1.0.0" +:+ PyStr.nl
       +:+ "- Mode: " +:+ mode +:+ PyStr.nl
       +:+ "- Pinecone: " +:+ connected +:+ PyStr.nl
       +:+ "- Google AI: " +:+ connected +:+ PyStr.nl)
  else
    text_result ("Unknown tool: " +:+ name).

End Backend.

End McpServer.

(** ** Start-up: the module-level code of agent.py and of ingest.py *)

(** [not v] for the result of [os.getenv]: [None] and the empty string. *)
Definition not_set (v : option string) : bool :=
  match v with
  | None => true
  | Some s => negb (PyStr.truthy s)
  end.

Definition ValueError (msg : string) : PyExc :=
  {| exc_type := "ValueError"; exc_msg := msg |}.

Module AgentInit.

(** The module globals [llm] and [vectorstore] that [retrieve] and
    [generate] use. *)
Record Handles := {
  llm : list Message -> Res Message;
  vectorstore : string -> nat -> Res (list Document)
}.

Section Constructors.

(** The three client constructors, which read the process environment
    themselves and may raise. *)
Variable Embeddings : Type.
Variable ChatGoogleGenerativeAI :
  gmap string string -> Res (list Message -> Res Message).
Variable GoogleGenerativeAIEmbeddings : gmap string string -> Res Embeddings.
Variable PineconeVectorStore :
  gmap string string -> string -> Embeddings ->
  Res (string -> nat -> Res (list Document)).

(** Lines 9 to 21 of agent.py, run when the module is first imported;
    [environ] is [os.environ] after [load_dotenv()]. *)
Definition load (environ : gmap string string) : M Handles :=
  let GOOGLE_API_KEY := environ !! "GOOGLE_API_KEY" in
  let PINECONE_INDEX_NAME :=
    default "steel-index" (environ !! "PINECONE_INDEX_NAME") in
  if not_set GOOGLE_API_KEY then raise (ValueError "GOOGLE_API_KEY missing")
  else
    do_ emit (EConstruct "ChatGoogleGenerativeAI");
    do l <- lift (ChatGoogleGenerativeAI environ);
    do_ emit (EConstruct "GoogleGenerativeAIEmbeddings");
    do embeddings <- lift (GoogleGenerativeAIEmbeddings environ);
    do_ emit (EConstruct "PineconeVectorStore");
    do v <- lift (PineconeVectorStore environ PINECONE_INDEX_NAME embeddings);
    ret {| llm := l; vectorstore := v |}.



End Constructors.

End AgentInit.

(** ** backend/ingest.py *)

Module Ingest.

Definition DATA_DIR : string := "./data".

(** The module globals set at import. *)
Record Config := {
  GOOGLE_API_KEY : option string;
  PINECONE_API_KEY : option string;
  INDEX_NAME : string
}.

(** Lines 12 to 21 of ingest.py. *)
Definition load (environ : gmap string string) : M Config :=
  let google := environ !! "GOOGLE_API_KEY" in
  let pinecone := environ !! "PINECONE_API_KEY" in
  let index := default "steel-index" (environ !! "PINECONE_INDEX_NAME") in
  if not_set google then raise (ValueError "GOOGLE_API_KEY not found in .env")
  else ret {| GOOGLE_API_KEY := google; PINECONE_API_KEY := pinecone;
              INDEX_NAME := index |}.

(** What the job finds outside the program. *)
Record World := {
  (** [os.path.exists(DATA_DIR)] *)
  data_dir_exists : bool;
  (** the names of the files matched by [Path(DATA_DIR).glob] *)
  pdf_files : list string;
  (** [DirectoryLoader(...).load()] *)
  loader_load : Res (list Document);
  (** [Path(p).name] *)
  path_name : string -> string;
  (** [datetime.now().isoformat()] at the i-th page *)
  now_isoformat : nat -> string;
  (** the embeddings client and [SemanticChunker(...).split_documents] *)
  split_documents : list Document -> Res (list Document);
  (** [Pinecone(api_key=key)] *)
  pinecone_client : string -> Res unit;
  (** the names of [pc.list_indexes()] *)
  list_indexes : Res (list string);
  (** [pc.create_index(name=..., ...)] *)
  create_index : string -> Res unit;
  (** [pc.describe_index(name).status["ready"]], polled while the job
      waits for a new index: the first [not_ready_polls] polls answer that
      the index is not ready, and the next one either answers that it is
      ([Ok]) or raises.  A world in which the index is never ready, where
      the job waits for ever, is not among these. *)
  not_ready_polls : nat;
  ready_poll : Res unit;
  (** [PineconeVectorStore.from_documents(chunks, embeddings, index_name)] *)
  from_documents : list Document -> string -> Res unit
}.

Definition TypeError (msg : string) : PyExc :=
  {| exc_type := "TypeError"; exc_msg := msg |}.

(** Truthiness of a metadata value. *)
Definition truthy (v : MetaVal) : bool :=
  match v with
  | MStr s => PyStr.truthy s
  | MInt z => negb (Z.eqb z 0)
  end.

(** The body of the loop of [enrich_metadata] on one page. *)
Definition enrich_one (w : World) (i : nat) (doc : Document) : M Document :=
  let source_path := default (MStr "") (metadata doc !! "source") in
  do md <- (if truthy source_path then
              match source_path with
              | MStr p => ret (<["source" := MStr (path_name w p)]>
                                 (<["filename" := MStr (path_name w p)]>
                                    (metadata doc)))
              | MInt _ => raise (TypeError
                  "expected str, bytes or os.PathLike object, not int")
              end
            else ret (metadata doc));
  let page := default (MInt 0) (md !! "page") in
  do md <- (match page with
            | MInt z => ret (<["page" := MInt (z + 1)]> md)
            | MStr _ => raise (TypeError
                ("can only concatenate str (not " +:+ PyStr.dq +:+ "int"
                 +:+ PyStr.dq +:+ ") to str"))
            end);
  ret {| page_content := page_content doc;
         metadata := <["ingested_at" := MStr (now_isoformat w i)]> md |}.

Fixpoint enrich_from (w : World) (i : nat) (docs : list Document)
    : M (list Document) :=
  match docs with
  | [] => ret []
  | doc :: rest =>
      do doc' <- enrich_one w i doc;
      do rest' <- enrich_from w (S i) rest;
      ret (doc' :: rest')
  end.

Definition enrich_metadata (w : World) (docs : list Document)
    : M (list Document) :=
  enrich_from w 0 docs.

Fixpoint print_all (lines : list string) : M unit :=
  match lines with
  | [] => ret tt
  | l :: rest => do_ print l; print_all rest
  end.

(** [str(d.get(k))] inside an f-string. *)
Definition show_get (md : gmap string MetaVal) (k : string) : string :=
  match md !! k with
  | Some v => py_str v
  | None => "None"
  end.

Definition rule : string := PyStr.repeat "=" 60.

(** [while not pc.describe_index(name).status["ready"]: time.sleep(1)],
    with [n] polls still to answer that the index is not ready. *)
Fixpoint wait_ready (w : World) (name : string) (n : nat) : M unit :=
  match n with
  | O => do_ emit (EDescribeIndex name); lift (ready_poll w)
  | S n' =>
      do_ emit (EDescribeIndex name);
      do_ emit (ESleep 1);
      wait_ready w name n'
  end.

Definition ingest_data (c : Config) (w : World) : M unit :=
  do_ print_all [rule; "SteelIntel Document Ingestion"; rule];
  if negb (data_dir_exists w) then
    do_ emit (EMakedirs DATA_DIR);
    print_all [ "Created " +:+ DATA_DIR +:+ "/ directory.";
                "Please add PDF documents to this folder and run again." ]
  else
  match pdf_files w with
  | [] => print_all [ "No PDF files found in " +:+ DATA_DIR +:+ "/";
                      "Please add PDF documents and run again." ]
  | _ =>
  do_ print ("Found " +:+ pretty (length (pdf_files w)) +:+ " PDF files:");
  do_ print_all (map (fun name => "  - " +:+ name) (pdf_files w));
  do_ print "";
  do_ print "Loading documents...";
  do_ emit (ELoad DATA_DIR);
  do docs <- lift (loader_load w);
  match docs with
  | [] => print "Failed to load any documents."
  | _ =>
  do_ print ("Loaded " +:+ pretty (length docs) +:+ " pages from "
             +:+ pretty (length (pdf_files w)) +:+ " files.");
  do_ print "Enriching metadata...";
  do docs <- enrich_metadata w docs;
  do_ (match docs with
       | [] => ret tt
       | sample :: _ =>
           print ("Sample metadata: source=" +:+ show_get (metadata sample) "source"
                  +:+ ", page=" +:+ show_get (metadata sample) "page")
       end);
  do_ print (PyStr.nl +:+ "Performing semantic chunking (this may take a while)...");
  do_ emit (EConstruct "GoogleGenerativeAIEmbeddings");
  do_ emit (ESplit (length docs));
  do chunks <- lift (split_documents w docs);
  do_ print ("Created " +:+ pretty (length chunks) +:+ " semantic chunks.");
  do_ (match chunks with
       | [] => raise {| exc_type := "ZeroDivisionError";
                        exc_msg := "integer division or modulo by zero" |}
       | _ => print ("Average chunk size: "
                     +:+ pretty (list_sum (map (fun ch => String.length (page_content ch)) chunks)
                                 / length chunks)%nat
                     +:+ " characters")
       end);
  do_ print (PyStr.nl +:+ "Connecting to Pinecone...");
  match (if not_set (PINECONE_API_KEY c) then None else PINECONE_API_KEY c) with
  | None => print "PINECONE_API_KEY is missing. Skipping upload."
  | Some key =>
  do_ emit (EConstruct "Pinecone");
  do_ lift (pinecone_client w key);
  do_ emit EListIndexes;
  do existing_indexes <- lift (list_indexes w);
  do_ (if negb (existsb (String.eqb (INDEX_NAME c)) existing_indexes) then
         do_ print ("Creating index '" +:+ INDEX_NAME c +:+ "'...");
         do_ emit (ECreateIndex (INDEX_NAME c) 768 "cosine" "aws" "us-east-1");
         do_ lift (create_index w (INDEX_NAME c));
         do_ print "Waiting for index to be ready...";
         do_ wait_ready w (INDEX_NAME c) (not_ready_polls w);
         print "Index ready!"
       else print ("Using existing index '" +:+ INDEX_NAME c +:+ "'"));
  do_ print (PyStr.nl +:+ "Uploading vectors to Pinecone...");
  do_ print ("This will upload " +:+ pretty (length chunks) +:+ " vectors...");
  do_ emit (EUpload (length chunks) (INDEX_NAME c));
  do_ lift (from_documents w chunks (INDEX_NAME c));
  print_all [ PyStr.nl +:+ rule; "Ingestion Complete!"; rule;
              "  Documents: " +:+ pretty (length (pdf_files w));
              "  Pages: " +:+ pretty (length docs);
              "  Chunks: " +:+ pretty (length chunks);
              "  Index: " +:+ INDEX_NAME c;
              "";
              "You can now query these documents via the API." ]
  end end end.


End Ingest.

(** * Notions used in the statements *)

(** The citation list and the context entries of [docs], numbered from
    [i]: what the loop of [retrieve] appends. *)
Definition citations_from (i : nat) (docs : list Document) : list Agent.Source :=
  imap (fun j doc => Agent.make_source (i + j) doc) docs.

Definition entries_from (i : nat) (docs : list Document) : list string :=
  imap (fun j doc => Agent.context_entry (i + j) doc) docs.

(** The context string assembled from [docs]. *)
Definition context_of (docs : list Document) : string :=
  PyStr.join (PyStr.nl +:+ PyStr.nl) (entries_from 0 docs).

(** The events of the two stages on the query [q]. *)
Definition retrieving (q : string) : list Event :=
  [EPrint "--- RETRIEVING ---"; ESearch q 10].

Definition generating (ctx q : string) : list Event :=
  [EPrint "--- GENERATING ---"; ELlm [HumanMessage (Agent.build_prompt ctx q)]].

(** The marker of the n-th passage (counting from 1), as the code writes
    it, and as a bare number. *)
Definition bracketed (n : nat) : string := "[" +:+ pretty n +:+ "]".
Definition bare (n : nat) : string := pretty n.

(** The events of the Generation Stage: its banner and the call of the
    language model. *)
Definition is_generation (e : Event) : bool :=
  match e with
  | ELlm _ => true
  | EPrint line => String.eqb line "--- GENERATING ---"
  | _ => false
  end.

Definition generation_events (t : list Event) : list Event :=
  List.filter is_generation t.

(** The query that [compare_materials] builds. *)
Definition comparison_query (arguments : McpServer.Arguments) : string :=
  "Compare "
  +:+ PyStr.join " and " (default [] (McpServer.arg_materials arguments))
  +:+ " for "
  +:+ match default ["yield strength"; "tensile strength"]
              (McpServer.arg_properties arguments) with
      | [] => "properties"
      | props => PyStr.join ", " props
      end.

Definition is_upload (e : Event) : bool :=
  match e with EUpload _ _ => true | _ => false end.

Definition uploads (t : list Event) : list Event := List.filter is_upload t.

(** An action that never uploads. *)
Definition no_upload {A} (m : M A) : Prop :=
  forall t, uploads (snd (m t)) = uploads t.

(** An action that leaves the trace alone. *)
Definition silent {A} (m : M A) : Prop := forall t, m t = (fst (m []), t).

(** ** Concrete passages and services *)

Module Fixtures.

Definition doc_a106 : Document :=
  {| page_content := "ASTM A106 Grade B: minimum yield strength 35,000 psi";
     metadata := <["source" := MStr "ASTM_A106.pdf"]> (<["page" := MInt 5]> ∅) |}.

(** A passage stored without metadata. *)
Definition doc_bare : Document :=
  {| page_content := "Hardness shall not exceed 22 HRC."; metadata := ∅ |}.

(** A passage of 250 characters. *)
Definition doc_long : Document :=
  {| page_content := PyStr.repeat "0123456789" 25;
     metadata := <["source" := MStr "NACE_MR0175.pdf"]> ∅ |}.

Definition index_two (q : string) (k : nat) : Res (list Document) :=
  Ok [doc_a106; doc_bare].

Definition index_one (q : string) (k : nat) : Res (list Document) :=
  Ok [doc_a106].

Definition index_empty (q : string) (k : nat) : Res (list Document) := Ok [].

Definition index_down (q : string) (k : nat) : Res (list Document) :=
  Raise {| exc_type := "PineconeException"; exc_msg := "index unreachable" |}.

Definition llm_answers (msgs : list Message) : Res Message :=
  Ok (AIMessage "Grade B has a minimum yield strength of 35,000 psi [1].").

Definition llm_down (msgs : list Message) : Res Message :=
  Raise {| exc_type := "ResourceExhausted"; exc_msg := "quota exceeded" |}.

Definition question : string := "What is the yield strength of A106 Grade B?".

Definition inputs : Agent.AgentState :=
  {| Agent.messages := [HumanMessage question];
     Agent.context := ""; Agent.sources := [] |}.

End Fixtures.

Module StartupFixtures.


(** The language-model key is set, the vector-index key is not. *)
Definition environ_no_pinecone : gmap string string :=
  <["GOOGLE_API_KEY" := "g-key"]> ∅.

Definition page_a106 : Document :=
  {| page_content := "Grade B: minimum yield strength 35,000 psi";
     metadata := <["source" := MStr "data/ASTM_A106.pdf"]>
                   (<["page" := MInt 4]> ∅) |}.

(** A data directory with one PDF of one page, split into one chunk. *)
Definition world_one_pdf : Ingest.World :=
  {| Ingest.data_dir_exists := true;
     Ingest.pdf_files := ["ASTM_A106.pdf"];
     Ingest.loader_load := Ok [page_a106];
     Ingest.path_name := fun _ => "ASTM_A106.pdf";
     Ingest.now_isoformat := fun _ => "2025-01-01T00:00:00";
     Ingest.split_documents := fun docs => Ok docs;
     Ingest.pinecone_client := fun _ => Ok tt;
     Ingest.list_indexes := Ok ["steel-index"];
     Ingest.create_index := fun _ => Ok tt;
     Ingest.not_ready_polls := 0;
     Ingest.ready_poll := Ok tt;
     Ingest.from_documents := fun _ _ => Ok tt |}.

(** The same directory, with the index still to be created: it answers
    not ready to two polls and ready to the third. *)
Definition world_new_index : Ingest.World :=
  {| Ingest.data_dir_exists := true;
     Ingest.pdf_files := ["ASTM_A106.pdf"];
     Ingest.loader_load := Ok [page_a106];
     Ingest.path_name := fun _ => "ASTM_A106.pdf";
     Ingest.now_isoformat := fun _ => "2025-01-01T00:00:00";
     Ingest.split_documents := fun docs => Ok docs;
     Ingest.pinecone_client := fun _ => Ok tt;
     Ingest.list_indexes := Ok ["other-index"];
     Ingest.create_index := fun _ => Ok tt;
     Ingest.not_ready_polls := 2;
     Ingest.ready_poll := Ok tt;
     Ingest.from_documents := fun _ _ => Ok tt |}.

(** [page_a106] after [enrich_metadata] in these worlds. *)
Definition page_a106_enriched : Document :=
  {| page_content := page_content page_a106;
     metadata := <["ingested_at" := MStr "2025-01-01T00:00:00"]>
                   (<["page" := MInt 5]>
                      (<["source" := MStr "ASTM_A106.pdf"]>
                         (<["filename" := MStr "ASTM_A106.pdf"]>
                            (metadata page_a106)))) |}.

Definition config_both_keys : Ingest.Config :=
  {| Ingest.GOOGLE_API_KEY := Some "g-key";
     Ingest.PINECONE_API_KEY := Some "p-key";
     Ingest.INDEX_NAME := "steel-index" |}.

Definition make_llm (environ : gmap string string)
    : Res (list Message -> Res Message) := Ok Fixtures.llm_answers.
Definition make_embeddings (environ : gmap string string) : Res unit := Ok tt.
Definition make_vectorstore (environ : gmap string string) (index : string)
    (embeddings : unit) : Res (string -> nat -> Res (list Document)) :=
  Ok Fixtures.index_two.

End StartupFixtures.

(** ** Notions used in the further properties *)

Definition is_search (e : Event) : bool :=
  match e with ESearch _ _ => true | _ => false end.

Definition is_llm (e : Event) : bool :=
  match e with ELlm _ => true | _ => false end.

(** The calls of the similarity search and of the language model in a
    trace. *)
Definition searches (t : list Event) : list Event := List.filter is_search t.
Definition llm_calls (t : list Event) : list Event := List.filter is_llm t.

(** The events of the pipeline: the two banners and the two calls. *)
Definition is_pipeline (e : Event) : bool :=
  match e with
  | ESearch _ _ | ELlm _ => true
  | EPrint line => String.eqb line "--- RETRIEVING ---"
                   || String.eqb line "--- GENERATING ---"
  | _ => false
  end.

(** An action that adds no event satisfying [P] to the trace. *)
Definition avoids (P : Event -> bool) {A} (m : M A) : Prop :=
  forall t, List.filter P (snd (m t)) = List.filter P t.

(** The index creations and the sleeps in a trace. *)
Definition is_create (e : Event) : bool :=
  match e with ECreateIndex _ _ _ _ _ => true | _ => false end.

Definition is_sleep (e : Event) : bool :=
  match e with ESleep _ => true | _ => false end.

Definition creations (t : list Event) : list Event := List.filter is_create t.
Definition sleeps (t : list Event) : list Event := List.filter is_sleep t.

(** The events of the wait for a new index that answers not ready [n]
    times: a poll and a sleep, [n] times, and the poll that ends the wait. *)
Fixpoint polling (name : string) (n : nat) : list Event :=
  match n with
  | O => [EDescribeIndex name]
  | S n' => EDescribeIndex name :: ESleep 1 :: polling name n'
  end.

(** A page as [enrich_metadata] expects it: the page number, when there
    is one, is an integer, and the source, when it is not skipped as
    empty, is a string. *)
Definition page_ok (doc : Document) : bool :=
  match metadata doc !! "page" with
  | Some (MStr _) => false
  | _ => true
  end.

Definition source_ok (doc : Document) : bool :=
  match metadata doc !! "source" with
  | Some (MInt z) => Z.eqb z 0
  | _ => true
  end.

(** The page number before enrichment: [doc.metadata.get("page", 0)]. *)
Definition page_number (doc : Document) : Z :=
  match metadata doc !! "page" with
  | Some (MInt z) => z
  | _ => 0%Z
  end.

(** The source path that [enrich_metadata] rewrites, if any. *)
Definition source_path (doc : Document) : option string :=
  match metadata doc !! "source" with
  | Some (MStr p) => if PyStr.truthy p then Some p else None
  | _ => None
  end.

(** ** The tools announced by mcp_server.py *)

Module McpTools.

(** One entry of an [inputSchema]'s [properties]. *)
Record Property := {
  prop_name : string;
  prop_type : string;
  prop_items : option string;
  prop_description : string
}.

(** A [Tool]; every [inputSchema] has the type [object]. *)
Record Tool := {
  name : string;
  description : string;
  properties : list Property;
  required : list string
}.

Definition list_tools : list Tool :=
  [ {| name := "query_steel_specs";
       description := "Search the steel specifications database for information about materials, standards, and properties. Returns response with source citations.";
       properties :=
         [ {| prop_name := "query"; prop_type := "string"; prop_items := None;
              prop_description := "The question about steel specifications (e.g., 'What is the yield strength of A106 Grade B?')" |} ];
       required := ["query"] |};
    {| name := "check_compliance";
       description := "Check if a material meets specific compliance requirements (NACE MR0175, ASTM, API standards).";
       properties :=
         [ {| prop_name := "material"; prop_type := "string"; prop_items := None;
              prop_description := "The material to check (e.g., '4140 steel', 'A106 Grade B')" |};
           {| prop_name := "standard"; prop_type := "string"; prop_items := None;
              prop_description := "The compliance standard (e.g., 'NACE MR0175', 'ASTM A106', 'API 5L')" |};
           {| prop_name := "requirements"; prop_type := "string"; prop_items := None;
              prop_description := "Specific requirements to check (e.g., 'sour service', 'high temperature')" |} ];
       required := ["material"; "standard"] |};
    {| name := "compare_materials";
       description := "Compare properties of multiple steel grades or materials.";
       properties :=
         [ {| prop_name := "materials"; prop_type := "array";
              prop_items := Some "string";
              prop_description := "List of materials to compare (e.g., ['A106 Grade B', 'A53 Type E'])" |};
           {| prop_name := "properties"; prop_type := "array";
              prop_items := Some "string";
              prop_description := "Properties to compare (e.g., ['yield strength', 'tensile strength', 'chemistry'])" |} ];
       required := ["materials"] |};
    {| name := "list_documents";
       description := "List all documents currently indexed in the knowledge base.";
       properties := [];
       required := [] |};
    {| name := "get_health";
       description := "Check the health status of the steel knowledge backend.";
       properties := [];
       required := [] |} ].

End McpTools.

(** The text of the reply to an unknown tool name. *)
Definition unknown_tool (name : string) : list McpServer.TextContent :=
  [ {| McpServer.type := "text"; McpServer.text := "Unknown tool: " +:+ name |} ].

(** The first character of the one text of a reply, if it has just one. *)
Definition reply_head (r : Res (list McpServer.TextContent)) : option ascii :=
  match r with
  | Ok [c] => match McpServer.text c with
              | String a _ => Some a
              | EmptyString => None
              end
  | _ => None
  end.

(** A reply that is raised, or whose text begins with [a]. *)
Definition headed (a : ascii) (r : Res (list McpServer.TextContent)) : Prop :=
  reply_head r = None \/ reply_head r = Some a.

(** The query that [check_compliance] builds. *)
Definition compliance_query (arguments : McpServer.Arguments) : string :=
  "Does " +:+ default "" (McpServer.arg_material arguments)
  +:+ " meet " +:+ default "" (McpServer.arg_standard arguments)
  +:+ " requirements"
  +:+ match default "" (McpServer.arg_requirements arguments) with
      | "" => ""
      | r => " for " +:+ r
      end
  +:+ "?".

(** The line of the reply that cites the passage of rank [j]. *)
Definition citation_line (j : nat) (doc : Document) : string :=
  "- " +:+ bracketed (j + 1) +:+ " "
  +:+ match metadata doc !! "source" with
      | Some v => py_str v
      | None => "Unknown Document"
      end
  +:+ " (p. "
  +:+ match metadata doc !! "page" with
      | Some v => py_str v
      | None => "N/A"
      end
  +:+ ")" +:+ PyStr.nl.

(** The block of cited sources at the end of a reply: nothing without
    passages, the heading and one line per passage otherwise. *)
Definition sources_block (heading : string) (docs : list Document) : string :=
  match docs with
  | [] => ""
  | _ => heading +:+ PyStr.nl +:+ String.concat "" (imap citation_line docs)
  end.

(** * Properties *)

(** ** The retrieval loop *)

Section RetrieveLoop.

Import Agent.

Lemma retrieve_loop_appends (docs : list Document) :
  forall i ctx srcs,
    retrieve_loop i docs ctx srcs
    = ((ctx ++ entries_from i docs)%list, (srcs ++ citations_from i docs)%list).
Proof.
  induction docs as [|doc rest IH]; intros i ctx srcs; simpl.
  - by rewrite !app_nil_r.
  - rewrite IH. unfold entries_from, citations_from. simpl.
    rewrite <- !app_assoc. simpl. rewrite Nat.add_0_r.
    f_equal; do 2 f_equal; apply imap_ext; intros j d _; simpl;
      by rewrite Nat.add_succ_r.
Qed.

Lemma retrieve_loop_start (docs : list Document) :
  retrieve_loop 0 docs [] [] = (entries_from 0 docs, citations_from 0 docs).
Proof. by rewrite retrieve_loop_appends. Qed.

Lemma citations_from_length i docs : length (citations_from i docs) = length docs.
Proof. unfold citations_from. by rewrite length_imap. Qed.

Lemma citations_from_lookup i docs j :
  citations_from i docs !! j = make_source (i + j) <$> docs !! j.
Proof. unfold citations_from. by rewrite list_lookup_imap. Qed.


End RetrieveLoop.

(** ** The two nodes and the graph, run on one query *)

Section Pipeline.

Import Agent.

Variable similarity_search : string -> nat -> Res (list Document).
Variable llm_invoke : list Message -> Res Message.

Local Abbreviation retrieve := (retrieve similarity_search).
Local Abbreviation generate := (generate llm_invoke).
Local Abbreviation run_agent := (run_agent similarity_search llm_invoke).

Lemma retrieve_ok st m docs t :
  last (messages st) = Some m ->
  similarity_search (content m) 10 = Ok docs ->
  retrieve st t
  = (Ok {| upd_messages := None;
           upd_context := Some (context_of docs);
           upd_sources := Some (citations_from 0 docs) |},
     (t ++ retrieving (content m))%list).
Proof.
  intros Hm Hs. unfold Agent.retrieve, bind, print, emit, last_item,
    vectorstore_similarity_search, lift, ret, bind.
  rewrite Hm. unfold ret, emit, lift. rewrite Hs.
  rewrite retrieve_loop_start. by rewrite <- app_assoc.
Qed.

Lemma retrieve_raise st m e t :
  last (messages st) = Some m ->
  similarity_search (content m) 10 = Raise e ->
  retrieve st t = (Raise e, (t ++ retrieving (content m))%list).
Proof.
  intros Hm Hs. unfold Agent.retrieve, bind, print, emit, last_item,
    vectorstore_similarity_search, lift, ret, bind.
  rewrite Hm. unfold ret, emit, lift. rewrite Hs.
  by rewrite <- app_assoc.
Qed.

Lemma generate_run st m t :
  last (messages st) = Some m ->
  generate st t
  = (match llm_invoke [HumanMessage (build_prompt (context st) (content m))] with
     | Ok resp => Ok {| upd_messages := Some [resp];
                        upd_context := None; upd_sources := None |}
     | Raise e => Raise e
     end,
     (t ++ generating (context st) (content m))%list).
Proof.
  intros Hm. unfold Agent.generate, bind, print, emit, last_item, llm_call,
    lift, ret, bind.
  rewrite Hm. unfold ret, emit, lift. rewrite <- app_assoc. simpl.
  by destruct (llm_invoke _).
Qed.

(** The graph runs [retrieve], then [generate], then stops. *)
Lemma app_invoke_unfold inputs :
  app_invoke similarity_search llm_invoke inputs
  = (do u <- retrieve inputs;
     let st := Graph.apply_update inputs u in
     do u' <- generate st;
     ret (Graph.apply_update st u')).
Proof. reflexivity. Qed.

(** One query through [run_agent], by the answers of the two services. *)
Lemma run_agent_run q t :
  run_agent q t
  = match similarity_search q 10 with
    | Raise e => (Raise e, (t ++ retrieving q)%list)
    | Ok docs =>
        (match llm_invoke [HumanMessage (build_prompt (context_of docs) q)] with
         | Raise e => Raise e
         | Ok resp => Ok {| response := content resp;
                            result_sources := citations_from 0 docs |}
         end,
         (t ++ retrieving q ++ generating (context_of docs) q)%list)
    end.
Proof.
  unfold Agent.run_agent. rewrite app_invoke_unfold. unfold bind at 1 2.
  destruct (similarity_search q 10) as [docs|e] eqn:Hs.
  - rewrite (retrieve_ok _ (HumanMessage q) docs) by done.
    unfold bind at 1.
    rewrite (generate_run _ (HumanMessage q)) by done. simpl.
    rewrite <- app_assoc.
    by destruct (llm_invoke _).
  - by rewrite (retrieve_raise _ (HumanMessage q) e).
Qed.

End Pipeline.

(** ** Reference markers as strings *)

Section Markers.

Import Agent.

Lemma string_app_length (s1 s2 : string) :
  String.length (s1 +:+ s2) = String.length s1 + String.length s2.
Proof. induction s1 as [|c s1 IH]; simpl; [done | by rewrite IH]. Qed.

Lemma string_app_inv_tail (s1 s2 t : string) :
  s1 +:+ t = s2 +:+ t -> s1 = s2.
Proof.
  revert s2. induction s1 as [|c s1 IH]; intros [|d s2] H.
  - done.
  - apply (f_equal String.length) in H.
    rewrite !string_app_length in H. simpl in H. lia.
  - apply (f_equal String.length) in H.
    rewrite !string_app_length in H. simpl in H. lia.
  - simpl in H. injection H as -> H. f_equal. by apply IH.
Qed.

Lemma bracketed_inj i j : bracketed i = bracketed j -> i = j.
Proof.
  unfold bracketed. intros H. simpl in H. injection H as H.
  change (pretty i +:+ "]" = pretty j +:+ "]") in H.
  apply string_app_inv_tail in H. by apply (inj pretty) in H.
Qed.








End Markers.

(** ** Citations: one per passage, numbered in retrieval order *)

Section Citations.

Import Agent.

Lemma citations_from_cons i doc rest :
  citations_from i (doc :: rest) = make_source i doc :: citations_from (S i) rest.
Proof.
  unfold citations_from. simpl. rewrite Nat.add_0_r. f_equal.
  apply imap_ext. intros j d _. simpl. by rewrite Nat.add_succ_r.
Qed.

Lemma entries_from_cons i doc rest :
  entries_from i (doc :: rest) = context_entry i doc :: entries_from (S i) rest.
Proof.
  unfold entries_from. simpl. rewrite Nat.add_0_r. f_equal.
  apply imap_ext. intros j d _. simpl. by rewrite Nat.add_succ_r.
Qed.

Lemma citations_from_refs docs : forall i,
  map ref (citations_from i docs) = map bracketed (seq (i + 1) (length docs)).
Proof.
  induction docs as [|doc rest IH]; intros i; [done|].
  rewrite citations_from_cons. simpl. f_equal.
  rewrite IH. by replace (S i + 1) with (S (i + 1)) by lia.
Qed.

Lemma citations_from_refs_NoDup docs i : NoDup (map ref (citations_from i docs)).
Proof.
  rewrite citations_from_refs. apply NoDup_fmap_2; [|apply NoDup_seq].
  intros a b H. by apply bracketed_inj.
Qed.

End Citations.

(** C1, as amended.  When the similarity search returns the passages
    [docs], the Retrieval Stage returns, without raising, a citation list
    with exactly one citation per passage, whose reference markers are the
    strings "[1]", "[2]", ..., "[N]" in the order of the passages: no gap, no
    repetition, no reordering. *)
Theorem retrieve_citation_markers
    (similarity_search : string -> nat -> Res (list Document))
    (st : Agent.AgentState) (m : Message) (docs : list Document)
    (t : list Event) :
  last (Agent.messages st) = Some m ->
  similarity_search (content m) 10 = Ok docs ->
  exists ctx srcs,
    Agent.retrieve similarity_search st t
    = (Ok {| Agent.upd_messages := None;
             Agent.upd_context := Some ctx;
             Agent.upd_sources := Some srcs |},
       (t ++ retrieving (content m))%list)
    /\ length srcs = length docs
    /\ map Agent.ref srcs = map bracketed (seq 1 (length docs))
    /\ NoDup (map Agent.ref srcs).
Proof.
  intros Hm Hs. exists (context_of docs), (citations_from 0 docs).
  split; [by apply retrieve_ok|].
  split; [apply citations_from_length|].
  split; [apply (citations_from_refs docs 0) | apply citations_from_refs_NoDup].
Qed.

Lemma retrieve_citation_markers_witness :
  exists ctx srcs,
    Agent.retrieve Fixtures.index_two Fixtures.inputs []
    = (Ok {| Agent.upd_messages := None;
             Agent.upd_context := Some ctx;
             Agent.upd_sources := Some srcs |},
       ([] ++ retrieving Fixtures.question)%list)
    /\ length srcs = 2
    /\ map Agent.ref srcs = map bracketed (seq 1 2)
    /\ NoDup (map Agent.ref srcs).
Proof.
  apply (retrieve_citation_markers Fixtures.index_two Fixtures.inputs
           (HumanMessage Fixtures.question)
           [Fixtures.doc_a106; Fixtures.doc_bare] []); reflexivity.
Defined.

(** C1 as stated fails: the markers are not the bare numbers "1" ... "N".
    On an index that returns one passage the only marker is "[1]". *)
Lemma retrieve_markers_not_bare :
  ~ (forall (similarity_search : string -> nat -> Res (list Document))
            (st : Agent.AgentState) (m : Message) (docs : list Document)
            (t : list Event),
        last (Agent.messages st) = Some m ->
        similarity_search (content m) 10 = Ok docs ->
        docs <> [] ->
        exists ctx srcs,
          Agent.retrieve similarity_search st t
          = (Ok {| Agent.upd_messages := None;
                   Agent.upd_context := Some ctx;
                   Agent.upd_sources := Some srcs |},
             (t ++ retrieving (content m))%list)
          /\ length srcs = length docs
          /\ map Agent.ref srcs = map bare (seq 1 (length docs))).
Proof.
  intros H.
  destruct (H Fixtures.index_one Fixtures.inputs
              (HumanMessage Fixtures.question) [Fixtures.doc_a106] []
              eq_refl eq_refl ltac:(discriminate))
    as (ctx & srcs & Hrun & _ & Hrefs).
  vm_compute in Hrun. injection Hrun as _ <-.
  vm_compute in Hrefs. discriminate.
Qed.

(** C2.  The citation list in the result of [run_agent] is the list of the
    passages returned by the similarity search, citation by citation: it has
    the same length, and its j-th citation is the one built from the j-th
    passage.  Nothing is dropped, merged, reordered or added.  A result
    exists whenever both services answer. *)
Theorem run_agent_citations_match_passages
    (similarity_search : string -> nat -> Res (list Document))
    (llm_invoke : list Message -> Res Message)
    (q : string) (docs : list Document) (t : list Event) :
  similarity_search q 10 = Ok docs ->
  (forall resp,
      llm_invoke [HumanMessage (Agent.build_prompt (context_of docs) q)] = Ok resp ->
      exists r t', Agent.run_agent similarity_search llm_invoke q t = (Ok r, t'))
  /\ (forall r t',
        Agent.run_agent similarity_search llm_invoke q t = (Ok r, t') ->
        length (Agent.result_sources r) = length docs
        /\ forall j, Agent.result_sources r !! j
                     = Agent.make_source j <$> docs !! j).
Proof.
  intros Hs. rewrite run_agent_run, Hs. split.
  - intros resp ->. eauto.
  - intros r t' H. destruct (llm_invoke _); [|discriminate].
    injection H as <- _. simpl. split.
    + apply citations_from_length.
    + intros j. apply (citations_from_lookup 0).
Qed.

Lemma run_agent_citations_match_passages_witness :
  (exists r t', Agent.run_agent Fixtures.index_two Fixtures.llm_answers
                  Fixtures.question [] = (Ok r, t'))
  /\ (forall r t',
        Agent.run_agent Fixtures.index_two Fixtures.llm_answers
          Fixtures.question [] = (Ok r, t') ->
        length (Agent.result_sources r) = 2
        /\ forall j, Agent.result_sources r !! j
                     = Agent.make_source j
                         <$> [Fixtures.doc_a106; Fixtures.doc_bare] !! j).
Proof.
  destruct (run_agent_citations_match_passages Fixtures.index_two
              Fixtures.llm_answers Fixtures.question
              [Fixtures.doc_a106; Fixtures.doc_bare] [] eq_refl) as [H1 H2].
  split; [|exact H2]. by eapply H1.
Defined.

(** ** Errors at the endpoint *)

Section Endpoint.

Lemma Sources_of_dicts_length l l' :
  Server.Sources_of_dicts l = Ok l' -> length l' = length l.
Proof.
  revert l'. induction l as [|s rest IH]; intros l' H; simpl in H.
  - by injection H as <-.
  - destruct (Server.Source_of_dict s); [|discriminate].
    destruct (Server.Sources_of_dicts rest) as [rest'|]; [|discriminate].
    injection H as <-. simpl. f_equal. by apply IH.
Qed.

Variable similarity_search : string -> nat -> Res (list Document).
Variable llm_invoke : list Message -> Res Message.

(** [chat] in terms of [run_agent]. *)
Lemma chat_run q t :
  Server.chat similarity_search llm_invoke q t
  = match Agent.run_agent similarity_search llm_invoke q t with
    | (Raise e, t') => (Server.HTTPException 500 (exc_msg e), t')
    | (Ok r, t') =>
        match Server.Sources_of_dicts (Agent.result_sources r) with
        | Ok srcs => (Server.Returned {| Server.response := Agent.response r;
                                         Server.sources := srcs |}, t')
        | Raise e => (Server.HTTPException 500 (exc_msg e), t')
        end
    end.
Proof.
  unfold Server.chat, Server.chat_body, bind, lift, ret.
  destruct (Agent.run_agent _ _ q t) as [[r|e] t']; [|done].
  by destruct (Server.Sources_of_dicts _).
Qed.

End Endpoint.

(** C3.  A failure of either stage leaves [chat] as one
    [HTTPException] with status 500 whose detail is the message of the
    exception raised.  Whatever [chat] produces is either that error or a
    complete response: the answer of the language model together with one
    citation for each passage retrieved.  Citations never come back
    without an answer. *)
Theorem chat_all_or_nothing
    (similarity_search : string -> nat -> Res (list Document))
    (llm_invoke : list Message -> Res Message)
    (q : string) (t : list Event) :
  (forall e, similarity_search q 10 = Raise e ->
     Server.chat similarity_search llm_invoke q t
     = (Server.HTTPException 500 (exc_msg e), (t ++ retrieving q)%list))
  /\ (forall docs e,
        similarity_search q 10 = Ok docs ->
        llm_invoke [HumanMessage (Agent.build_prompt (context_of docs) q)] = Raise e ->
        Server.chat similarity_search llm_invoke q t
        = (Server.HTTPException 500 (exc_msg e),
           (t ++ retrieving q ++ generating (context_of docs) q)%list))
  /\ (forall o t', Server.chat similarity_search llm_invoke q t = (o, t') ->
        (exists detail, o = Server.HTTPException 500 detail)
        \/ (exists body docs resp,
              o = Server.Returned body
              /\ similarity_search q 10 = Ok docs
              /\ llm_invoke [HumanMessage (Agent.build_prompt (context_of docs) q)]
                 = Ok resp
              /\ Server.response body = content resp
              /\ length (Server.sources body) = length docs)).
Proof.
  rewrite chat_run, run_agent_run. repeat split.
  - by intros e ->.
  - by intros docs e -> ->.
  - intros o t' H.
    destruct (similarity_search q 10) as [docs|e]; [|injection H as <- _; eauto].
    destruct (llm_invoke _) as [resp|e] eqn:Hl; [|injection H as <- _; eauto].
    simpl in H.
    destruct (Server.Sources_of_dicts _) as [srcs|e] eqn:Hv;
      injection H as <- _; [right|eauto].
    exists {| Server.response := content resp; Server.sources := srcs |}, docs, resp.
    repeat split; try done.
    apply Sources_of_dicts_length in Hv. simpl.
    by rewrite Hv, citations_from_length.
Qed.

Lemma chat_all_or_nothing_witness :
  Server.chat Fixtures.index_down Fixtures.llm_answers Fixtures.question []
  = (Server.HTTPException 500 "index unreachable",
     ([] ++ retrieving Fixtures.question)%list)
  /\ Server.chat Fixtures.index_two Fixtures.llm_down Fixtures.question []
     = (Server.HTTPException 500 "quota exceeded",
        ([] ++ retrieving Fixtures.question
            ++ generating (context_of [Fixtures.doc_a106; Fixtures.doc_bare])
                 Fixtures.question)%list).
Proof.
  destruct (chat_all_or_nothing Fixtures.index_down Fixtures.llm_answers
              Fixtures.question []) as (H1 & _ & _).
  destruct (chat_all_or_nothing Fixtures.index_two Fixtures.llm_down
              Fixtures.question []) as (_ & H2 & _).
  split.
  - exact (H1 _ eq_refl).
  - exact (H2 _ _ eq_refl eq_refl).
Defined.

(** ** The order of the two stages *)

(** C4.  When the similarity search raises, [run_agent] raises the same
    exception right after the search: the trace grows by the retrieval
    banner and the search only, no event of the Generation Stage is added,
    and the outcome does not depend on the language model at all.  The
    graph is the fixed sequence [retrieve], then [generate], then [END]. *)
Theorem retrieval_failure_skips_generation
    (similarity_search : string -> nat -> Res (list Document))
    (llm_invoke : list Message -> Res Message)
    (q : string) (e : PyExc) (t : list Event) :
  similarity_search q 10 = Raise e ->
  Agent.run_agent similarity_search llm_invoke q t
  = (Raise e, (t ++ [EPrint "--- RETRIEVING ---"; ESearch q 10])%list)
  /\ generation_events (snd (Agent.run_agent similarity_search llm_invoke q t))
     = generation_events t
  /\ (forall llm_invoke',
        Agent.run_agent similarity_search llm_invoke' q t
        = Agent.run_agent similarity_search llm_invoke q t)
  /\ (forall inputs,
        Agent.app_invoke similarity_search llm_invoke inputs
        = (do u <- Agent.retrieve similarity_search inputs;
           do u' <- Agent.generate llm_invoke (Agent.Graph.apply_update inputs u);
           ret (Agent.Graph.apply_update (Agent.Graph.apply_update inputs u) u'))).
Proof.
  intros Hs. rewrite !run_agent_run, Hs. repeat split.
  - simpl. unfold generation_events. rewrite List.filter_app. simpl.
    by rewrite app_nil_r.
  - intros llm'. by rewrite run_agent_run, Hs.
Qed.

Lemma retrieval_failure_skips_generation_witness :
  Agent.run_agent Fixtures.index_down Fixtures.llm_answers Fixtures.question []
  = (Raise {| exc_type := "PineconeException"; exc_msg := "index unreachable" |},
     [EPrint "--- RETRIEVING ---"; ESearch Fixtures.question 10])
  /\ generation_events
       (snd (Agent.run_agent Fixtures.index_down Fixtures.llm_answers
               Fixtures.question []))
     = [].
Proof.
  destruct (retrieval_failure_skips_generation Fixtures.index_down
              Fixtures.llm_answers Fixtures.question _ [] eq_refl)
    as (H1 & H2 & _).
  split; [exact H1 | exact H2].
Defined.

(** ** Markers in the context, previews and metadata defaults *)

Section PerPassage.

Import Agent.


Lemma take_length n s :
  String.length (PyStr.take n s) = Nat.min n (String.length s).
Proof.
  revert s. induction n as [|n IH]; intros [|c s]; simpl; try done.
  by rewrite IH.
Qed.

Lemma take_prefix n s : exists rest, s = PyStr.take n s +:+ rest.
Proof.
  revert s. induction n as [|n IH]; intros s.
  - exists s. by destruct s.
  - destruct s as [|c s]; [by exists ""|].
    destruct (IH s) as [rest Hrest]. exists rest.
    change (String c s = String c (PyStr.take n s +:+ rest)). by f_equal.
Qed.

End PerPassage.



(** C6.  For every retrieved passage, the preview in its citation is the
    first 200 characters of the text followed by "..." when the text is
    longer than 200 characters, and the text itself otherwise. *)
Theorem content_preview_truncation
    (similarity_search : string -> nat -> Res (list Document))
    (st : Agent.AgentState) (m : Message) (docs : list Document)
    (t : list Event) :
  last (Agent.messages st) = Some m ->
  similarity_search (content m) 10 = Ok docs ->
  exists ctx srcs,
    Agent.retrieve similarity_search st t
    = (Ok {| Agent.upd_messages := None;
             Agent.upd_context := Some ctx;
             Agent.upd_sources := Some srcs |},
       (t ++ retrieving (content m))%list)
    /\ forall j doc, docs !! j = Some doc ->
         exists s, srcs !! j = Some s
           /\ (200 < String.length (page_content doc) ->
               Agent.content_preview s
               = PyStr.take 200 (page_content doc) +:+ "..."
               /\ String.length (PyStr.take 200 (page_content doc)) = 200
               /\ exists rest,
                    page_content doc = PyStr.take 200 (page_content doc) +:+ rest)
           /\ (String.length (page_content doc) <= 200 ->
               Agent.content_preview s = page_content doc).
Proof.
  intros Hm Hs. exists (context_of docs), (citations_from 0 docs).
  split; [by apply retrieve_ok|].
  intros j doc Hj. exists (Agent.make_source j doc).
  split; [by rewrite citations_from_lookup, Hj|].
  unfold Agent.make_source; cbn [Agent.content_preview]. split; intros Hlen.
  - destruct (Nat.ltb_spec 200 (String.length (page_content doc))); [|lia].
    split; [done|]. split; [rewrite take_length; lia | apply take_prefix].
  - destruct (Nat.ltb_spec 200 (String.length (page_content doc))); [lia|done].
Qed.

Lemma content_preview_truncation_witness :
  exists ctx srcs,
    Agent.retrieve (fun _ _ => Ok [Fixtures.doc_long; Fixtures.doc_bare])
      Fixtures.inputs []
    = (Ok {| Agent.upd_messages := None;
             Agent.upd_context := Some ctx;
             Agent.upd_sources := Some srcs |},
       ([] ++ retrieving Fixtures.question)%list)
    /\ forall j doc, [Fixtures.doc_long; Fixtures.doc_bare] !! j = Some doc ->
         exists s, srcs !! j = Some s
           /\ (200 < String.length (page_content doc) ->
               Agent.content_preview s
               = PyStr.take 200 (page_content doc) +:+ "..."
               /\ String.length (PyStr.take 200 (page_content doc)) = 200
               /\ exists rest,
                    page_content doc = PyStr.take 200 (page_content doc) +:+ rest)
           /\ (String.length (page_content doc) <= 200 ->
               Agent.content_preview s = page_content doc).
Proof.
  apply (content_preview_truncation
           (fun _ _ => Ok [Fixtures.doc_long; Fixtures.doc_bare])
           Fixtures.inputs (HumanMessage Fixtures.question)); reflexivity.
Defined.

(** C7.  Retrieval does not raise on passages with missing metadata: a
    passage without the [source] key gets the document name
    "Unknown Document", a passage without the [page] key gets the page
    label "N/A". *)
Theorem missing_metadata_defaults
    (similarity_search : string -> nat -> Res (list Document))
    (st : Agent.AgentState) (m : Message) (docs : list Document)
    (t : list Event) :
  last (Agent.messages st) = Some m ->
  similarity_search (content m) 10 = Ok docs ->
  exists ctx srcs,
    Agent.retrieve similarity_search st t
    = (Ok {| Agent.upd_messages := None;
             Agent.upd_context := Some ctx;
             Agent.upd_sources := Some srcs |},
       (t ++ retrieving (content m))%list)
    /\ forall j doc, docs !! j = Some doc ->
         exists s, srcs !! j = Some s
           /\ (metadata doc !! "source" = None ->
               Agent.document s = MStr "Unknown Document")
           /\ (metadata doc !! "page" = None -> Agent.page s = "N/A").
Proof.
  intros Hm Hs. exists (context_of docs), (citations_from 0 docs).
  split; [by apply retrieve_ok|].
  intros j doc Hj. exists (Agent.make_source j doc).
  split; [by rewrite citations_from_lookup, Hj|].
  unfold Agent.make_source; simpl. by split; intros ->.
Qed.

Lemma missing_metadata_defaults_witness :
  exists ctx srcs,
    Agent.retrieve Fixtures.index_two Fixtures.inputs []
    = (Ok {| Agent.upd_messages := None;
             Agent.upd_context := Some ctx;
             Agent.upd_sources := Some srcs |},
       ([] ++ retrieving Fixtures.question)%list)
    /\ forall j doc, [Fixtures.doc_a106; Fixtures.doc_bare] !! j = Some doc ->
         exists s, srcs !! j = Some s
           /\ (metadata doc !! "source" = None ->
               Agent.document s = MStr "Unknown Document")
           /\ (metadata doc !! "page" = None -> Agent.page s = "N/A").
Proof.
  apply (missing_metadata_defaults Fixtures.index_two Fixtures.inputs
           (HumanMessage Fixtures.question)); reflexivity.
Defined.

(** ** An empty index *)

(** C8.  When the similarity search returns no passage, the Retrieval
    Stage completes without raising, with no citation and the empty context
    string, and the Generation Stage is still run, on the prompt built from
    that empty context.  With the language model answering, as it does in
    this scenario, [run_agent] completes without error and returns that
    answer with the empty citation list.  (A failure of the language model
    is the Generation Failure of every query, empty index or not.) *)
Theorem empty_index_still_generates
    (similarity_search : string -> nat -> Res (list Document))
    (llm_invoke : list Message -> Res Message)
    (q : string) (t : list Event) :
  similarity_search q 10 = Ok [] ->
  Agent.retrieve similarity_search
    {| Agent.messages := [HumanMessage q]; Agent.context := "";
       Agent.sources := [] |} t
  = (Ok {| Agent.upd_messages := None; Agent.upd_context := Some "";
           Agent.upd_sources := Some [] |},
     (t ++ [EPrint "--- RETRIEVING ---"; ESearch q 10])%list)
  /\ snd (Agent.run_agent similarity_search llm_invoke q t)
     = (t ++ [EPrint "--- RETRIEVING ---"; ESearch q 10;
              EPrint "--- GENERATING ---";
              ELlm [HumanMessage (Agent.build_prompt "" q)]])%list
  /\ (forall resp,
        llm_invoke [HumanMessage (Agent.build_prompt "" q)] = Ok resp ->
        Agent.run_agent similarity_search llm_invoke q t
        = (Ok {| Agent.response := content resp; Agent.result_sources := [] |},
           (t ++ [EPrint "--- RETRIEVING ---"; ESearch q 10;
                  EPrint "--- GENERATING ---";
                  ELlm [HumanMessage (Agent.build_prompt "" q)]])%list)).
Proof.
  intros Hs. split; [|split].
  - by rewrite (retrieve_ok _ _ (HumanMessage q) []).
  - by rewrite run_agent_run, Hs.
  - intros resp Hl. rewrite run_agent_run, Hs.
    change (context_of []) with "". by rewrite Hl.
Qed.

Lemma empty_index_still_generates_witness :
  Agent.run_agent Fixtures.index_empty Fixtures.llm_answers Fixtures.question []
  = (Ok {| Agent.response :=
             "Grade B has a minimum yield strength of 35,000 psi [1].";
           Agent.result_sources := [] |},
     [EPrint "--- RETRIEVING ---"; ESearch Fixtures.question 10;
      EPrint "--- GENERATING ---";
      ELlm [HumanMessage (Agent.build_prompt "" Fixtures.question)]]).
Proof.
  destruct (empty_index_still_generates Fixtures.index_empty
              Fixtures.llm_answers Fixtures.question [] eq_refl)
    as (_ & _ & H3).
  exact (H3 _ eq_refl).
Defined.

(** ** The tool adapter *)

Section Tools.

Variable HAS_REAL_BACKEND : bool.
Variable similarity_search : string -> nat -> Res (list Document).
Variable llm_invoke : list Message -> Res Message.
Variable get_demo_response : string -> Res Agent.AgentResult.
Variable vectorstore_list_documents : option (Res (list (gmap string MetaVal))).

Local Abbreviation call_tool :=
  (McpServer.call_tool HAS_REAL_BACKEND similarity_search llm_invoke
     get_demo_response vectorstore_list_documents).

Lemma compare_materials_run arguments :
  call_tool "compare_materials" arguments
  = if (length (default [] (McpServer.arg_materials arguments)) <? 2)%nat
    then McpServer.text_result
           "Error: Please provide at least 2 materials to compare."
    else
      do result <- McpServer.answer HAS_REAL_BACKEND similarity_search
                     llm_invoke get_demo_response (comparison_query arguments);
      McpServer.text_result
        (McpServer.with_sources
           ("**Material Comparison: "
            +:+ PyStr.join " and " (default [] (McpServer.arg_materials arguments))
            +:+ "**" +:+ PyStr.nl +:+ PyStr.nl +:+ Agent.response result
            +:+ PyStr.nl +:+ PyStr.nl)
           "**Sources:**" (Agent.result_sources result)).
Proof.
  unfold McpServer.call_tool, comparison_query.
  change ("compare_materials" =? "query_steel_specs")%string with false.
  change ("compare_materials" =? "check_compliance")%string with false.
  change ("compare_materials" =? "compare_materials")%string with true.
  cbv iota.
  destruct (default _ (McpServer.arg_properties arguments)); reflexivity.
Qed.

End Tools.

(** C10.  [compare_materials] with fewer than two materials (a missing
    [materials] key counts as none) returns the error text and does nothing
    else: the trace is unchanged, so neither stage, nor the demo backend, is
    invoked.  Whenever the call does anything, at least two materials were
    supplied; and with at least two materials and a real backend the
    pipeline is entered with the comparison query. *)
Theorem compare_materials_needs_two
    (HAS_REAL_BACKEND : bool)
    (similarity_search : string -> nat -> Res (list Document))
    (llm_invoke : list Message -> Res Message)
    (get_demo_response : string -> Res Agent.AgentResult)
    (vectorstore_list_documents : option (Res (list (gmap string MetaVal))))
    (arguments : McpServer.Arguments) (t : list Event) :
  let call :=
    McpServer.call_tool HAS_REAL_BACKEND similarity_search llm_invoke
      get_demo_response vectorstore_list_documents "compare_materials"
      arguments t in
  let materials := default [] (McpServer.arg_materials arguments) in
  (length materials < 2 ->
   call = (Ok [ {| McpServer.type := "text";
                   McpServer.text :=
                     "Error: Please provide at least 2 materials to compare." |} ],
           t))
  /\ (snd call <> t -> 2 <= length materials)
  /\ (2 <= length materials -> HAS_REAL_BACKEND = true ->
      exists rest,
        snd call = (t ++ retrieving (comparison_query arguments) ++ rest)%list).
Proof.
  intros call materials. subst call. rewrite compare_materials_run.
  fold materials. destruct (Nat.ltb_spec (length materials) 2) as [Hlt|Hge].
  - split; [done|]. split; [by intros []|lia].
  - split; [lia|]. split; [done|]. intros _ ->.
    unfold McpServer.answer, bind. rewrite run_agent_run.
    destruct (similarity_search _ 10) as [docs|e].
    + exists (generating (context_of docs) (comparison_query arguments)).
      by destruct (llm_invoke _).
    + exists []. by rewrite app_nil_r.
Qed.

Lemma compare_materials_needs_two_witness :
  McpServer.call_tool true Fixtures.index_two Fixtures.llm_answers
    (fun _ => Ok {| Agent.response := "demo"; Agent.result_sources := [] |})
    None "compare_materials"
    {| McpServer.arg_query := None; McpServer.arg_material := None;
       McpServer.arg_standard := None; McpServer.arg_requirements := None;
       McpServer.arg_materials := Some ["A106 Grade B"];
       McpServer.arg_properties := None |} []
  = (Ok [ {| McpServer.type := "text";
             McpServer.text :=
               "Error: Please provide at least 2 materials to compare." |} ],
     []).
Proof.
  apply (compare_materials_needs_two true Fixtures.index_two Fixtures.llm_answers
           (fun _ => Ok {| Agent.response := "demo"; Agent.result_sources := [] |})
           None
           {| McpServer.arg_query := None; McpServer.arg_material := None;
              McpServer.arg_standard := None; McpServer.arg_requirements := None;
              McpServer.arg_materials := Some ["A106 Grade B"];
              McpServer.arg_properties := None |} []).
  simpl. lia.
Defined.

(** ** Start-up configuration *)

Section NoUpload.

Lemma no_upload_ret {A} (a : A) : no_upload (ret a).
Proof. by intros t. Qed.

Lemma no_upload_raise {A} e : no_upload (@raise A e).
Proof. by intros t. Qed.

Lemma no_upload_lift {A} (r : Res A) : no_upload (lift r).
Proof. by intros t. Qed.

Lemma no_upload_emit e : is_upload e = false -> no_upload (emit e).
Proof.
  intros He t. unfold emit, uploads. simpl.
  rewrite List.filter_app. simpl. rewrite He. apply app_nil_r.
Qed.

Lemma no_upload_print line : no_upload (print line).
Proof. by apply no_upload_emit. Qed.

Lemma no_upload_bind {A B} (m : M A) (k : A -> M B) :
  no_upload m -> (forall a, no_upload (k a)) -> no_upload (bind m k).
Proof.
  intros Hm Hk t. unfold bind. specialize (Hm t).
  destruct (m t) as [[a|e] t']; simpl in *; [|done].
  by rewrite Hk.
Qed.

Lemma no_upload_print_all lines : no_upload (Ingest.print_all lines).
Proof.
  induction lines as [|l rest IH]; simpl.
  - apply no_upload_ret.
  - apply no_upload_bind; [apply no_upload_print | done].
Qed.

End NoUpload.

Create HintDb quiet.
#[local] Hint Resolve no_upload_ret no_upload_raise no_upload_lift
  no_upload_print no_upload_print_all : quiet.
#[local] Hint Extern 1 (no_upload (emit _)) =>
  apply no_upload_emit; reflexivity : quiet.
#[local] Hint Extern 2 (no_upload (bind _ _)) =>
  apply no_upload_bind; [|intros ?] : quiet.
#[local] Hint Extern 3 (no_upload (match ?x with _ => _ end)) =>
  destruct x : quiet.

Section IngestQuiet.




End IngestQuiet.

Section IngestRun.

Lemma silent_ret {A} (a : A) : silent (ret a).
Proof. by intros t. Qed.

Lemma silent_raise {A} e : silent (@raise A e).
Proof. by intros t. Qed.

Lemma silent_bind {A B} (m : M A) (k : A -> M B) :
  silent m -> (forall a, silent (k a)) -> silent (bind m k).
Proof.
  intros Hm Hk t. unfold bind. rewrite (Hm t).
  destruct (m []) as [[a|e] t0]; simpl; [|done].
  by rewrite (Hk a t), (Hk a t0).
Qed.

Lemma enrich_one_silent w i doc : silent (Ingest.enrich_one w i doc).
Proof.
  unfold Ingest.enrich_one.
  apply silent_bind.
  - destruct (Ingest.truthy _); [|apply silent_ret].
    destruct (default _ _); [apply silent_ret | apply silent_raise].
  - intros md. apply silent_bind; [|intros; apply silent_ret].
    destruct (default _ _); [apply silent_raise | apply silent_ret].
Qed.

Lemma enrich_from_silent w docs : forall i, silent (Ingest.enrich_from w i docs).
Proof.
  induction docs as [|doc rest IH]; intros i; simpl.
  - apply silent_ret.
  - apply silent_bind; [apply enrich_one_silent | intros doc'].
    apply silent_bind; [apply IH | intros; apply silent_ret].
Qed.

Lemma print_all_run lines t :
  Ingest.print_all lines t = (Ok tt, (t ++ map EPrint lines)%list).
Proof.
  revert t. induction lines as [|l rest IH]; intros t; simpl.
  - by rewrite app_nil_r.
  - unfold bind, print, emit. rewrite IH. by rewrite <- app_assoc.
Qed.


End IngestRun.




(** * Further properties of the code *)

(** ** The pipeline on one query *)

Section PipelineCalls.

Lemma join_length sep l :
  String.length (PyStr.join sep l)
  = list_sum (map String.length l) + String.length sep * (length l - 1).
Proof.
  induction l as [|x rest IH]; [simpl; lia|].
  destruct rest as [|y rest'].
  - simpl. lia.
  - change (PyStr.join sep (x :: y :: rest'))
      with (x +:+ sep +:+ PyStr.join sep (y :: rest')).
    rewrite !string_app_length, IH. simpl. lia.
Qed.

Lemma entries_from_lengths docs : forall i,
  list_sum (map String.length (entries_from i docs))
  = list_sum (map (fun s => String.length (Agent.ref s) + 1) (citations_from i docs))
    + list_sum (map (fun d => String.length (page_content d)) docs).
Proof.
  induction docs as [|doc rest IH]; intros i; [done|].
  rewrite entries_from_cons, citations_from_cons. cbn [map list_sum foldr].
  rewrite IH. unfold Agent.context_entry.
  rewrite !string_app_length. cbn [Agent.ref Agent.make_source String.length].
  change (String.length " ") with 1. unfold list_sum. lia.
Qed.

Lemma context_of_nonempty doc rest : context_of (doc :: rest) <> "".
Proof.
  unfold context_of. rewrite entries_from_cons.
  destruct (entries_from 1 rest); discriminate.
Qed.

Lemma preview_length i doc :
  String.length (Agent.content_preview (Agent.make_source i doc)) <= 203.
Proof.
  unfold Agent.make_source; cbn [Agent.content_preview].
  destruct (Nat.ltb_spec 200 (String.length (page_content doc))) as [H|H].
  - rewrite string_app_length, take_length.
    change (String.length "...") with 3. lia.
  - lia.
Qed.

End PipelineCalls.

(** X1.  One query costs exactly one similarity search, with k = 10 and the
    query text itself, and at most one call of the language model: exactly
    one, on the prompt built from the retrieved context, when the search
    succeeds, and none when it raises. *)
Theorem run_agent_calls
    (similarity_search : string -> nat -> Res (list Document))
    (llm_invoke : list Message -> Res Message)
    (q : string) (t : list Event) :
  let t' := snd (Agent.run_agent similarity_search llm_invoke q t) in
  searches t' = (searches t ++ [ESearch q 10])%list
  /\ llm_calls t'
     = (llm_calls t
        ++ match similarity_search q 10 with
           | Ok docs => [ELlm [HumanMessage (Agent.build_prompt (context_of docs) q)]]
           | Raise _ => []
           end)%list.
Proof.
  simpl. rewrite run_agent_run. unfold searches, llm_calls.
  destruct (similarity_search q 10) as [docs|e]; simpl;
    rewrite !List.filter_app; simpl; by rewrite ?app_nil_r.
Qed.

(** X2.  A node run on a state without messages raises [IndexError] right
    after its banner: [retrieve] before any search, [generate] before any
    call of the language model. *)
Theorem nodes_need_a_message
    (similarity_search : string -> nat -> Res (list Document))
    (llm_invoke : list Message -> Res Message)
    (st : Agent.AgentState) (t : list Event) :
  Agent.messages st = [] ->
  Agent.retrieve similarity_search st t
  = (Raise {| exc_type := "IndexError"; exc_msg := "list index out of range" |},
     (t ++ [EPrint "--- RETRIEVING ---"])%list)
  /\ Agent.generate llm_invoke st t
     = (Raise {| exc_type := "IndexError"; exc_msg := "list index out of range" |},
        (t ++ [EPrint "--- GENERATING ---"])%list).
Proof.
  intros H. unfold Agent.retrieve, Agent.generate, bind, print, emit, last_item.
  by rewrite H.
Qed.

Lemma nodes_need_a_message_witness :
  Agent.retrieve Fixtures.index_two
    {| Agent.messages := []; Agent.context := ""; Agent.sources := [] |} []
  = (Raise {| exc_type := "IndexError"; exc_msg := "list index out of range" |},
     [EPrint "--- RETRIEVING ---"]).
Proof.
  apply (nodes_need_a_message Fixtures.index_two Fixtures.llm_answers
           {| Agent.messages := []; Agent.context := ""; Agent.sources := [] |}
           [] eq_refl).
Defined.

(** X3.  Every citation in a result of [run_agent] has a preview of at most
    203 characters (200 of the passage and the three dots). *)
Theorem result_previews_bounded
    (similarity_search : string -> nat -> Res (list Document))
    (llm_invoke : list Message -> Res Message)
    (q : string) (t : list Event) (r : Agent.AgentResult) (t' : list Event) :
  Agent.run_agent similarity_search llm_invoke q t = (Ok r, t') ->
  Forall (fun s => String.length (Agent.content_preview s) <= 203)
    (Agent.result_sources r).
Proof.
  rewrite run_agent_run. intros H.
  destruct (similarity_search q 10) as [docs|e]; [|discriminate].
  destruct (llm_invoke _); [|discriminate]. injection H as <- _. simpl.
  apply Forall_lookup_2. intros j s Hj.
  rewrite citations_from_lookup in Hj.
  destruct (docs !! j) as [d|]; [|discriminate].
  injection Hj as <-. apply preview_length.
Qed.

Lemma result_previews_bounded_witness :
  Forall (fun s => String.length (Agent.content_preview s) <= 203)
    (citations_from 0 [Fixtures.doc_long; Fixtures.doc_bare]).
Proof.
  apply (result_previews_bounded
           (fun _ _ => Ok [Fixtures.doc_long; Fixtures.doc_bare])
           Fixtures.llm_answers Fixtures.question []
           {| Agent.response :=
                "Grade B has a minimum yield strength of 35,000 psi [1].";
              Agent.result_sources :=
                citations_from 0 [Fixtures.doc_long; Fixtures.doc_bare] |}
           ([] ++ retrieving Fixtures.question
               ++ generating (context_of [Fixtures.doc_long; Fixtures.doc_bare])
                    Fixtures.question)%list).
  reflexivity.
Defined.

(** X4.  The context string that [retrieve] returns is empty exactly when
    the search returned no passage, and nothing is cut from it: its length
    is the length of the passage texts, plus a marker and a blank for each
    passage, plus two newlines between consecutive passages. *)
Theorem context_size
    (similarity_search : string -> nat -> Res (list Document))
    (st : Agent.AgentState) (m : Message) (docs : list Document)
    (t : list Event) :
  last (Agent.messages st) = Some m ->
  similarity_search (content m) 10 = Ok docs ->
  exists ctx srcs,
    Agent.retrieve similarity_search st t
    = (Ok {| Agent.upd_messages := None;
             Agent.upd_context := Some ctx;
             Agent.upd_sources := Some srcs |},
       (t ++ retrieving (content m))%list)
    /\ (ctx = "" <-> docs = [])
    /\ String.length ctx
       = list_sum (map (fun d => String.length (page_content d)) docs)
         + list_sum (map (fun s => String.length (Agent.ref s) + 1) srcs)
         + 2 * (length docs - 1).
Proof.
  intros Hm Hs. exists (context_of docs), (citations_from 0 docs).
  split; [by apply retrieve_ok|]. split.
  - destruct docs as [|d ds]; [done|].
    split; [intros H; by apply context_of_nonempty in H | discriminate].
  - unfold context_of. rewrite join_length, entries_from_lengths.
    unfold entries_from. rewrite length_imap.
    change (String.length (PyStr.nl +:+ PyStr.nl)) with 2. lia.
Qed.

Lemma context_size_witness :
  exists ctx srcs,
    Agent.retrieve Fixtures.index_two Fixtures.inputs []
    = (Ok {| Agent.upd_messages := None;
             Agent.upd_context := Some ctx;
             Agent.upd_sources := Some srcs |},
       ([] ++ retrieving Fixtures.question)%list)
    /\ (ctx = "" <-> [Fixtures.doc_a106; Fixtures.doc_bare] = [])
    /\ String.length ctx
       = list_sum (map (fun d => String.length (page_content d))
                     [Fixtures.doc_a106; Fixtures.doc_bare])
         + list_sum (map (fun s => String.length (Agent.ref s) + 1) srcs)
         + 2 * (length [Fixtures.doc_a106; Fixtures.doc_bare] - 1).
Proof.
  apply (context_size Fixtures.index_two Fixtures.inputs
           (HumanMessage Fixtures.question)); reflexivity.
Defined.

(** ** The endpoint on success *)

Section EndpointSuccess.

Lemma Sources_of_dicts_strings (l : list Agent.Source) :
  Forall (fun s => exists name, Agent.document s = MStr name) l ->
  exists l',
    Server.Sources_of_dicts l = Ok l'
    /\ forall j s, l !! j = Some s ->
         exists s', l' !! j = Some s'
           /\ Server.ref s' = Agent.ref s
           /\ MStr (Server.document s') = Agent.document s
           /\ Server.page s' = Agent.page s
           /\ Server.content_preview s' = Agent.content_preview s.
Proof.
  induction 1 as [|s rest [name Hname] _ (rest' & Hrest & IH)].
  - exists []. split; [done|]. by intros j s.
  - exists ({| Server.ref := Agent.ref s; Server.document := name;
              Server.page := Agent.page s;
              Server.content_preview := Agent.content_preview s |} :: rest').
    split.
    + simpl. unfold Server.Source_of_dict. rewrite Hname. simpl.
      by rewrite Hrest.
    + intros [|j] s0 Hj; simpl in Hj.
      * injection Hj as <-. eexists. split; [done|]. by rewrite Hname.
      * by apply IH.
Qed.

End EndpointSuccess.

(** X5.  When both services answer and no passage carries an integer as its
    source, [chat] returns the response model: the answer of the language
    model and, for the j-th passage, a citation with the marker of rank
    j + 1, the source name (or "Unknown Document"), the page label and the
    preview that [retrieve] built. *)
Theorem chat_returns_citations
    (similarity_search : string -> nat -> Res (list Document))
    (llm_invoke : list Message -> Res Message)
    (q : string) (docs : list Document) (resp : Message) (t : list Event) :
  similarity_search q 10 = Ok docs ->
  llm_invoke [HumanMessage (Agent.build_prompt (context_of docs) q)] = Ok resp ->
  Forall (fun d => forall z, metadata d !! "source" <> Some (MInt z)) docs ->
  exists srcs,
    Server.chat similarity_search llm_invoke q t
    = (Server.Returned {| Server.response := content resp;
                          Server.sources := srcs |},
       (t ++ retrieving q ++ generating (context_of docs) q)%list)
    /\ length srcs = length docs
    /\ forall j d, docs !! j = Some d ->
         exists s, srcs !! j = Some s
           /\ Server.ref s = bracketed (j + 1)
           /\ Server.document s
              = match metadata d !! "source" with
                | Some (MStr name) => name
                | _ => "Unknown Document"
                end
           /\ Server.page s = Agent.page (Agent.make_source j d)
           /\ Server.content_preview s
              = Agent.content_preview (Agent.make_source j d).
Proof.
  intros Hs Hl Hdocs.
  destruct (Sources_of_dicts_strings (citations_from 0 docs)) as (srcs & Hv & Hsrcs).
  { apply Forall_lookup_2. intros j s Hj. rewrite citations_from_lookup in Hj.
    destruct (docs !! j) as [d|] eqn:Hd; [|discriminate]. injection Hj as <-.
    pose proof (Forall_lookup_1 _ _ _ _ Hdocs Hd) as Hd'. simpl in Hd'.
    unfold Agent.make_source; cbn [Agent.document].
    destruct (metadata d !! "source") as [[name|z]|]; simpl; eauto.
    by destruct (Hd' z). }
  exists srcs. rewrite chat_run, run_agent_run, Hs, Hl. simpl. rewrite Hv.
  split; [done|]. split.
  - apply Sources_of_dicts_length in Hv. by rewrite Hv, citations_from_length.
  - intros j d Hd.
    destruct (Hsrcs j (Agent.make_source j d)) as (s & Hj & Hr & Hdoc & Hp & Hc).
    { by rewrite citations_from_lookup, Hd. }
    exists s. split; [done|]. split; [done|]. split; [|done].
    unfold Agent.make_source in Hdoc; cbn [Agent.document] in Hdoc.
    pose proof (Forall_lookup_1 _ _ _ _ Hdocs Hd) as Hd'. simpl in Hd'.
    destruct (metadata d !! "source") as [[name|z]|]; simpl in Hdoc.
    + by injection Hdoc.
    + by destruct (Hd' z).
    + by injection Hdoc.
Qed.

Lemma chat_returns_citations_witness :
  exists srcs,
    Server.chat Fixtures.index_two Fixtures.llm_answers Fixtures.question []
    = (Server.Returned
         {| Server.response :=
              "Grade B has a minimum yield strength of 35,000 psi [1].";
            Server.sources := srcs |},
       ([] ++ retrieving Fixtures.question
           ++ generating (context_of [Fixtures.doc_a106; Fixtures.doc_bare])
                Fixtures.question)%list)
    /\ length srcs = 2.
Proof.
  destruct (chat_returns_citations Fixtures.index_two Fixtures.llm_answers
              Fixtures.question [Fixtures.doc_a106; Fixtures.doc_bare]
              (AIMessage "Grade B has a minimum yield strength of 35,000 psi [1].")
              [] eq_refl eq_refl) as (srcs & H1 & H2 & _).
  { repeat constructor; intros z; vm_compute; discriminate. }
  exists srcs. split; [exact H1 | exact H2].
Defined.

(** ** Metadata enrichment *)

Section Enrich.

Variable w : Ingest.World.

(** What [enrich_one] does to a page it accepts. *)
Lemma enrich_one_ok i doc t :
  page_ok doc = true -> source_ok doc = true ->
  exists doc',
    Ingest.enrich_one w i doc t = (Ok doc', t)
    /\ page_content doc' = page_content doc
    /\ metadata doc' !! "page" = Some (MInt (page_number doc + 1))
    /\ metadata doc' !! "ingested_at" = Some (MStr (Ingest.now_isoformat w i))
    /\ (forall p, source_path doc = Some p ->
          metadata doc' !! "source" = Some (MStr (Ingest.path_name w p))
          /\ metadata doc' !! "filename" = Some (MStr (Ingest.path_name w p)))
    /\ (source_path doc = None ->
          metadata doc' !! "source" = metadata doc !! "source"
          /\ metadata doc' !! "filename" = metadata doc !! "filename")
    /\ (forall k, k <> "source" -> k <> "filename" -> k <> "page" ->
          k <> "ingested_at" -> metadata doc' !! k = metadata doc !! k).
Proof.
  unfold page_ok, source_ok, page_number, source_path, Ingest.enrich_one,
    bind, ret, raise.
  intros Hpage Hsource.
  destruct (metadata doc !! "source") as [[p|z]|] eqn:Hs; simpl.
  - destruct (PyStr.truthy p) eqn:Hp; simpl.
    + rewrite !lookup_insert_ne by done. simpl.
      destruct (metadata doc !! "page") as [[s|z]|] eqn:Hpg; [done| |];
        (eexists; split; [reflexivity|]; simpl;
         repeat split; intros; simplify_map_eq; done).
    + destruct (metadata doc !! "page") as [[s|z]|] eqn:Hpg; [done| |];
        (eexists; split; [reflexivity|]; simpl;
         repeat split; intros; simplify_map_eq; done).
  - apply Z.eqb_eq in Hsource as ->. simpl.
    destruct (metadata doc !! "page") as [[s|z]|] eqn:Hpg; [done| |];
      (eexists; split; [reflexivity|]; simpl;
       repeat split; intros; simplify_map_eq; done).
  - destruct (metadata doc !! "page") as [[s|z]|] eqn:Hpg; [done| |];
      (eexists; split; [reflexivity|]; simpl;
       repeat split; intros; simplify_map_eq; done).
Qed.

End Enrich.

Section EnrichList.

Variable w : Ingest.World.

Lemma enrich_from_ok docs : forall i t,
  Forall (fun d => page_ok d = true /\ source_ok d = true) docs ->
  exists docs',
    Ingest.enrich_from w i docs t = (Ok docs', t)
    /\ length docs' = length docs
    /\ forall j d, docs !! j = Some d ->
         exists d', docs' !! j = Some d'
           /\ fst (Ingest.enrich_one w (i + j) d []) = Ok d'.
Proof.
  induction docs as [|doc rest IH]; intros i t Hok.
  - exists []. by repeat split.
  - inversion Hok as [|? ? [Hp Hs] Hrest]; subst.
    destruct (enrich_one_ok w i doc t Hp Hs) as (doc' & Hrun & _).
    destruct (IH (S i) t Hrest) as (rest' & Hrest' & Hlen & Hlook).
    exists (doc' :: rest'). simpl. unfold bind. rewrite Hrun, Hrest'.
    split; [done|]. split; [simpl; by rewrite Hlen|].
    intros [|j] d Hj; simpl in Hj.
    + injection Hj as <-. exists doc'. split; [done|].
      rewrite Nat.add_0_r. rewrite (enrich_one_silent w i doc t) in Hrun.
      by injection Hrun.
    + destruct (Hlook j d Hj) as (d' & Hd' & Hone). exists d'.
      split; [done|]. by rewrite Nat.add_succ_r.
Qed.

Lemma enrich_one_page_error i doc t :
  page_ok doc = false -> source_ok doc = true ->
  exists msg, Ingest.enrich_one w i doc t = (Raise (Ingest.TypeError msg), t).
Proof.
  unfold page_ok, source_ok, Ingest.enrich_one, bind, ret, raise.
  intros Hpage Hsource.
  destruct (metadata doc !! "source") as [[p|z]|] eqn:Hs; simpl.
  - destruct (PyStr.truthy p); simpl.
    + rewrite !lookup_insert_ne by done.
      destruct (metadata doc !! "page") as [[s|z]|]; try done. simpl. eauto.
    + destruct (metadata doc !! "page") as [[s|z]|]; try done. simpl. eauto.
  - apply Z.eqb_eq in Hsource as ->. simpl.
    destruct (metadata doc !! "page") as [[s|z]|]; try done. simpl. eauto.
  - destruct (metadata doc !! "page") as [[s|z]|]; try done. simpl. eauto.
Qed.

End EnrichList.

(** X6.  On pages whose page number is an integer (or absent) and whose
    source is a string (or absent), [enrich_metadata] returns as many
    pages as it was given and leaves the trace alone.  In the j-th page the
    page number is one more than before (1 when there was none), the time
    stamp is set, and a non-empty source path is replaced by its file name,
    which is also stored under [filename]. *)
Theorem enrich_metadata_sets (w : Ingest.World) (docs : list Document)
    (t : list Event) :
  Forall (fun d => page_ok d = true /\ source_ok d = true) docs ->
  exists docs',
    Ingest.enrich_metadata w docs t = (Ok docs', t)
    /\ length docs' = length docs
    /\ forall j d, docs !! j = Some d ->
         exists d', docs' !! j = Some d'
           /\ metadata d' !! "page" = Some (MInt (page_number d + 1))
           /\ metadata d' !! "ingested_at" = Some (MStr (Ingest.now_isoformat w j))
           /\ forall p, source_path d = Some p ->
                metadata d' !! "source" = Some (MStr (Ingest.path_name w p))
                /\ metadata d' !! "filename" = Some (MStr (Ingest.path_name w p)).
Proof.
  intros Hok. unfold Ingest.enrich_metadata.
  destruct (enrich_from_ok w docs 0 t Hok) as (docs' & Hrun & Hlen & Hlook).
  exists docs'. split; [done|]. split; [done|]. intros j d Hj.
  destruct (Hlook j d Hj) as (d' & Hd' & Hone). exists d'. split; [done|].
  pose proof (Forall_lookup_1 _ _ _ _ Hok Hj) as [Hp Hs].
  destruct (enrich_one_ok w j d [] Hp Hs)
    as (d'' & Hrun' & _ & Hpage & Hts & Hsrc & _).
  simpl in Hone. rewrite Hrun' in Hone. injection Hone as <-. done.
Qed.

Lemma enrich_metadata_sets_witness :
  exists docs',
    Ingest.enrich_metadata StartupFixtures.world_one_pdf
      [StartupFixtures.page_a106; Fixtures.doc_bare] []
    = (Ok docs', [])
    /\ length docs' = 2
    /\ forall j d, [StartupFixtures.page_a106; Fixtures.doc_bare] !! j = Some d ->
         exists d', docs' !! j = Some d'
           /\ metadata d' !! "page" = Some (MInt (page_number d + 1))
           /\ metadata d' !! "ingested_at"
              = Some (MStr (Ingest.now_isoformat StartupFixtures.world_one_pdf j))
           /\ forall p, source_path d = Some p ->
                metadata d' !! "source"
                = Some (MStr (Ingest.path_name StartupFixtures.world_one_pdf p))
                /\ metadata d' !! "filename"
                   = Some (MStr (Ingest.path_name StartupFixtures.world_one_pdf p)).
Proof.
  apply (enrich_metadata_sets StartupFixtures.world_one_pdf
           [StartupFixtures.page_a106; Fixtures.doc_bare] []).
  repeat constructor.
Defined.

(** X7.  [enrich_metadata] changes nothing else: the text of every page
    is kept, every metadata key other than [source], [filename], [page] and
    [ingested_at] keeps its value, and a page without a source (or with an
    empty one) keeps [source] and [filename] as they were. *)
Theorem enrich_metadata_keeps (w : Ingest.World) (docs : list Document)
    (t : list Event) :
  Forall (fun d => page_ok d = true /\ source_ok d = true) docs ->
  exists docs',
    Ingest.enrich_metadata w docs t = (Ok docs', t)
    /\ forall j d, docs !! j = Some d ->
         exists d', docs' !! j = Some d'
           /\ page_content d' = page_content d
           /\ (forall k, k <> "source" -> k <> "filename" -> k <> "page" ->
                 k <> "ingested_at" -> metadata d' !! k = metadata d !! k)
           /\ (source_path d = None ->
                 metadata d' !! "source" = metadata d !! "source"
                 /\ metadata d' !! "filename" = metadata d !! "filename").
Proof.
  intros Hok. unfold Ingest.enrich_metadata.
  destruct (enrich_from_ok w docs 0 t Hok) as (docs' & Hrun & _ & Hlook).
  exists docs'. split; [done|].
  intros j d Hj. destruct (Hlook j d Hj) as (d' & Hd' & Hone).
  exists d'. split; [done|].
  pose proof (Forall_lookup_1 _ _ _ _ Hok Hj) as [Hp Hs].
  destruct (enrich_one_ok w j d [] Hp Hs)
    as (d'' & Hrun'' & Hc & _ & _ & _ & Hnone & Hkeys).
  simpl in Hone. rewrite Hrun'' in Hone. injection Hone as <-. done.
Qed.

Lemma enrich_metadata_keeps_witness :
  exists docs',
    Ingest.enrich_metadata StartupFixtures.world_one_pdf
      [StartupFixtures.page_a106; Fixtures.doc_bare] [] = (Ok docs', [])
    /\ forall j d, [StartupFixtures.page_a106; Fixtures.doc_bare] !! j = Some d ->
         exists d', docs' !! j = Some d'
           /\ page_content d' = page_content d
           /\ (forall k, k <> "source" -> k <> "filename" -> k <> "page" ->
                 k <> "ingested_at" -> metadata d' !! k = metadata d !! k)
           /\ (source_path d = None ->
                 metadata d' !! "source" = metadata d !! "source"
                 /\ metadata d' !! "filename" = metadata d !! "filename").
Proof.
  apply (enrich_metadata_keeps StartupFixtures.world_one_pdf
           [StartupFixtures.page_a106; Fixtures.doc_bare] []).
  repeat constructor.
Defined.

(** X8.  A page whose page number is a string makes [enrich_metadata]
    raise [TypeError] (a string plus one), with nothing returned. *)
Theorem enrich_metadata_string_page (w : Ingest.World) (docs : list Document)
    (t : list Event) :
  Forall (fun d => source_ok d = true) docs ->
  Exists (fun d => page_ok d = false) docs ->
  exists msg,
    Ingest.enrich_metadata w docs t = (Raise (Ingest.TypeError msg), t).
Proof.
  unfold Ingest.enrich_metadata. generalize 0 as i.
  induction docs as [|doc rest IH]; intros i Hs Hex; [by inversion Hex|].
  inversion Hs as [|? ? Hsd Hsrest]; subst. simpl. unfold bind.
  destruct (page_ok doc) eqn:Hp.
  - destruct (enrich_one_ok w i doc t Hp Hsd) as (doc' & -> & _).
    inversion Hex as [? ? Hbad|? ? Hbad]; subst; [congruence|].
    destruct (IH (S i) Hsrest Hbad) as [msg ->]. eauto.
  - destruct (enrich_one_page_error w i doc t Hp Hsd) as [msg ->]. eauto.
Qed.

Lemma enrich_metadata_string_page_witness :
  exists msg,
    Ingest.enrich_metadata StartupFixtures.world_one_pdf
      [Fixtures.doc_bare;
       {| page_content := "x"; metadata := <["page" := MStr "iv"]> ∅ |}] []
    = (Raise (Ingest.TypeError msg), []).
Proof.
  apply (enrich_metadata_string_page StartupFixtures.world_one_pdf).
  - repeat constructor.
  - apply Exists_cons_tl, Exists_cons_hd. reflexivity.
Defined.



(** ** The ingestion job *)

Section IngestPaths.

Lemma uploads_prints lines : uploads (map EPrint lines) = [].
Proof. induction lines as [|l rest IH]; [done | by simpl]. Qed.

Lemma uploads_app t1 t2 : uploads (t1 ++ t2) = (uploads t1 ++ uploads t2)%list.
Proof. apply List.filter_app. Qed.

(** The print of the sample metadata succeeds and uploads nothing. *)
Lemma sample_print_run (docs : list Document) t0 :
  exists t1,
    match docs with
    | [] => ret tt
    | sample :: _ =>
        print ("Sample metadata: source="
               +:+ Ingest.show_get (metadata sample) "source"
               +:+ ", page=" +:+ Ingest.show_get (metadata sample) "page")
    end t0 = (Ok tt, t1)
    /\ uploads t1 = uploads t0.
Proof.
  destruct docs as [|sample rest].
  - by exists t0.
  - eexists. split; [reflexivity|]. rewrite uploads_app. simpl. apply app_nil_r.
Qed.

End IngestPaths.

(** The steps of [ingest_data] up to the split of the pages, taken one
    bind at a time under hypotheses named as in the lemmas below. *)
Ltac ingest_to_split Hdir Hload Henrich Hsplit :=
  unfold Ingest.ingest_data; rewrite Hdir; simpl negb; cbv iota;
  match goal with
  | |- context [ Ingest.pdf_files ?w ] =>
      destruct (Ingest.pdf_files w) as [|?f ?fs]; [done|]
  end;
  unfold bind at 1; rewrite print_all_run;
  unfold bind at 1; unfold print at 1, emit at 1;
  unfold bind at 1; rewrite print_all_run;
  unfold bind at 1; unfold print at 1, emit at 1;
  unfold bind at 1; unfold print at 1, emit at 1;
  unfold bind at 1; unfold emit at 1;
  unfold bind at 1; unfold lift at 1; rewrite Hload;
  unfold bind at 1; unfold print at 1, emit at 1;
  unfold bind at 1; unfold print at 1, emit at 1;
  unfold bind at 1; unfold Ingest.enrich_metadata in *;
  rewrite (enrich_from_silent _ _ 0), Henrich;
  unfold bind at 1;
  match goal with
  | |- context [ match ?ds with [] => ret tt | _ :: _ => _ end ?t0 ] =>
      let t1 := fresh "t1" in
      let Ht1 := fresh "Ht1" in
      let Hu := fresh "Hu" in
      destruct (sample_print_run ds t0) as (t1 & Ht1 & Hu); rewrite Ht1
  end;
  unfold bind at 1; unfold print at 1, emit at 1;
  unfold bind at 1; unfold emit at 1;
  unfold bind at 1; unfold emit at 1;
  unfold bind at 1; unfold lift at 1; rewrite Hsplit;
  unfold bind at 1; unfold print at 1, emit at 1.

(** X10.  [ingest_data] stops early, without raising and without loading
    anything, when the data directory is missing (which it then creates) or
    holds no PDF file; and it stops after the load, before any chunking,
    when the loader returns no page. *)
Theorem ingest_data_early_exits (c : Ingest.Config) (w : Ingest.World)
    (t : list Event) :
  let banner := map EPrint [Ingest.rule; "SteelIntel Document Ingestion"; Ingest.rule] in
  (Ingest.data_dir_exists w = false ->
   Ingest.ingest_data c w t
   = (Ok tt,
      (t ++ banner ++ [EMakedirs "./data"]
         ++ map EPrint ["Created ./data/ directory.";
                        "Please add PDF documents to this folder and run again."])%list))
  /\ (Ingest.data_dir_exists w = true -> Ingest.pdf_files w = [] ->
      Ingest.ingest_data c w t
      = (Ok tt,
         (t ++ banner
            ++ map EPrint ["No PDF files found in ./data/";
                           "Please add PDF documents and run again."])%list))
  /\ (Ingest.data_dir_exists w = true -> Ingest.pdf_files w <> [] ->
      Ingest.loader_load w = Ok [] ->
      exists t',
        Ingest.ingest_data c w t
        = (Ok tt, (t' ++ [ELoad "./data"; EPrint "Failed to load any documents."])%list)
        /\ Forall (fun e => match e with EPrint _ => True | _ => False end)
             (drop (length t) t')).
Proof.
  intros banner. split; [|split].
  - intros Hdir. unfold Ingest.ingest_data. rewrite Hdir. simpl negb. cbv iota.
    unfold bind at 1. rewrite print_all_run.
    unfold bind at 1, emit at 1. rewrite print_all_run.
    by rewrite <- !app_assoc.
  - intros Hdir Hpdf. unfold Ingest.ingest_data. rewrite Hdir, Hpdf.
    simpl negb. cbv iota.
    unfold bind at 1. rewrite !print_all_run. by rewrite <- !app_assoc.
  - intros Hdir Hpdf Hload. unfold Ingest.ingest_data. rewrite Hdir.
    simpl negb. cbv iota.
    destruct (Ingest.pdf_files w) as [|f fs]; [done|].
    unfold bind at 1; rewrite print_all_run.
    unfold bind at 1; unfold print at 1, emit at 1.
    unfold bind at 1; rewrite print_all_run.
    unfold bind at 1; unfold print at 1, emit at 1.
    unfold bind at 1; unfold print at 1, emit at 1.
    unfold bind at 1; unfold emit at 1.
    unfold bind at 1; unfold lift at 1; rewrite Hload.
    unfold print, emit.
    eexists. split.
    + rewrite <- (app_assoc _ [ELoad Ingest.DATA_DIR]). reflexivity.
    + rewrite <- !app_assoc. rewrite drop_app_length.
      repeat (apply Forall_app; split); try (by repeat constructor).
      all: apply Forall_forall; intros e He;
        apply list_elem_of_In, in_map_iff in He; by destruct He as (? & <- & _).
Qed.

Lemma ingest_data_early_exits_witness :
  Ingest.ingest_data
    {| Ingest.GOOGLE_API_KEY := Some "g-key"; Ingest.PINECONE_API_KEY := None;
       Ingest.INDEX_NAME := "steel-index" |}
    {| Ingest.data_dir_exists := false;
       Ingest.pdf_files := [];
       Ingest.loader_load := Ok [];
       Ingest.path_name := fun p => p;
       Ingest.now_isoformat := fun _ => "2025-01-01T00:00:00";
       Ingest.split_documents := fun docs => Ok docs;
       Ingest.pinecone_client := fun _ => Ok tt;
       Ingest.list_indexes := Ok ["steel-index"];
       Ingest.create_index := fun _ => Ok tt;
       Ingest.not_ready_polls := 0;
       Ingest.ready_poll := Ok tt;
       Ingest.from_documents := fun _ _ => Ok tt |} []
  = (Ok tt,
     ([] ++ map EPrint [Ingest.rule; "SteelIntel Document Ingestion"; Ingest.rule]
         ++ [EMakedirs "./data"]
         ++ map EPrint ["Created ./data/ directory.";
                        "Please add PDF documents to this folder and run again."])%list).
Proof.
  apply (ingest_data_early_exits
           {| Ingest.GOOGLE_API_KEY := Some "g-key"; Ingest.PINECONE_API_KEY := None;
              Ingest.INDEX_NAME := "steel-index" |}
           {| Ingest.data_dir_exists := false;
              Ingest.pdf_files := [];
              Ingest.loader_load := Ok [];
              Ingest.path_name := fun p => p;
              Ingest.now_isoformat := fun _ => "2025-01-01T00:00:00";
              Ingest.split_documents := fun docs => Ok docs;
              Ingest.pinecone_client := fun _ => Ok tt;
              Ingest.list_indexes := Ok ["steel-index"];
              Ingest.create_index := fun _ => Ok tt;
              Ingest.not_ready_polls := 0;
              Ingest.ready_poll := Ok tt;
              Ingest.from_documents := fun _ _ => Ok tt |} []).
  reflexivity.
Defined.

(** X11.  When the splitter returns no chunk, [ingest_data] raises
    [ZeroDivisionError] on the average chunk size, whether or not the
    vector-index key is set, and nothing is uploaded. *)
Theorem ingest_data_no_chunks (c : Ingest.Config) (w : Ingest.World)
    (docs docs' : list Document) (t : list Event) :
  Ingest.data_dir_exists w = true ->
  Ingest.pdf_files w <> [] ->
  Ingest.loader_load w = Ok docs -> docs <> [] ->
  fst (Ingest.enrich_metadata w docs []) = Ok docs' ->
  Ingest.split_documents w docs' = Ok [] ->
  exists t',
    Ingest.ingest_data c w t
    = (Raise {| exc_type := "ZeroDivisionError";
                exc_msg := "integer division or modulo by zero" |}, t')
    /\ uploads t' = uploads t.
Proof.
  intros Hdir Hpdf Hload Hdocs Henrich Hsplit.
  destruct docs as [|d ds]; [done|].
  ingest_to_split Hdir Hload Henrich Hsplit.
  unfold bind, raise. eexists. split; [reflexivity|].
  rewrite !uploads_app, Hu, !uploads_app, !uploads_prints. simpl.
  by rewrite !app_nil_r.
Qed.

Lemma ingest_data_no_chunks_witness :
  exists t',
    Ingest.ingest_data
      {| Ingest.GOOGLE_API_KEY := Some "g-key";
         Ingest.PINECONE_API_KEY := Some "p-key";
         Ingest.INDEX_NAME := "steel-index" |}
      {| Ingest.data_dir_exists := true;
         Ingest.pdf_files := ["ASTM_A106.pdf"];
         Ingest.loader_load := Ok [StartupFixtures.page_a106];
         Ingest.path_name := fun _ => "ASTM_A106.pdf";
         Ingest.now_isoformat := fun _ => "2025-01-01T00:00:00";
         Ingest.split_documents := fun _ => Ok [];
         Ingest.pinecone_client := fun _ => Ok tt;
         Ingest.list_indexes := Ok ["steel-index"];
         Ingest.create_index := fun _ => Ok tt;
         Ingest.not_ready_polls := 0;
         Ingest.ready_poll := Ok tt;
         Ingest.from_documents := fun _ _ => Ok tt |} []
    = (Raise {| exc_type := "ZeroDivisionError";
                exc_msg := "integer division or modulo by zero" |}, t')
    /\ uploads t' = uploads [].
Proof.
  eapply (ingest_data_no_chunks _
            {| Ingest.data_dir_exists := true;
               Ingest.pdf_files := ["ASTM_A106.pdf"];
               Ingest.loader_load := Ok [StartupFixtures.page_a106];
               Ingest.path_name := fun _ => "ASTM_A106.pdf";
               Ingest.now_isoformat := fun _ => "2025-01-01T00:00:00";
               Ingest.split_documents := fun _ => Ok [];
               Ingest.pinecone_client := fun _ => Ok tt;
               Ingest.list_indexes := Ok ["steel-index"];
               Ingest.create_index := fun _ => Ok tt;
               Ingest.not_ready_polls := 0;
               Ingest.ready_poll := Ok tt;
               Ingest.from_documents := fun _ _ => Ok tt |}
            [StartupFixtures.page_a106]);
    try reflexivity; discriminate.
Defined.

Section UploadPhase.

Lemma filter_prints (P : Event -> bool) lines :
  (forall l, P (EPrint l) = false) -> List.filter P (map EPrint lines) = [].
Proof.
  intros HP. induction lines as [|l rest IH]; [done|].
  simpl. by rewrite HP.
Qed.

(** The sample print adds print events only. *)
Lemma sample_print_inv (docs : list Document) t0 t1 :
  match docs with
  | [] => ret tt
  | sample :: _ =>
      print ("Sample metadata: source="
             +:+ Ingest.show_get (metadata sample) "source"
             +:+ ", page=" +:+ Ingest.show_get (metadata sample) "page")
  end t0 = (Ok tt, t1) ->
  exists lines, t1 = (t0 ++ map EPrint lines)%list.
Proof.
  destruct docs as [|sample rest]; intros H; injection H as <-.
  - exists []. by rewrite app_nil_r.
  - by eexists [_].
Qed.

Lemma wait_ready_run w name n : forall t,
  Ingest.wait_ready w name n t
  = (Ingest.ready_poll w, (t ++ polling name n)%list).
Proof.
  induction n as [|n IH]; intros t; simpl.
  - unfold bind, emit, lift. done.
  - unfold bind at 1, emit at 1. unfold bind at 1, emit at 1.
    rewrite IH. by rewrite <- !app_assoc.
Qed.

Lemma polling_uploads name n : List.filter is_upload (polling name n) = [].
Proof. induction n as [|n IH]; [done | by simpl]. Qed.

Lemma polling_creations name n : List.filter is_create (polling name n) = [].
Proof. induction n as [|n IH]; [done | by simpl]. Qed.

Lemma polling_sleeps name n : length (List.filter is_sleep (polling name n)) = n.
Proof. induction n as [|n IH]; [done | simpl; by rewrite IH]. Qed.

Lemma existsb_eqb_true (x : string) l :
  In x l -> existsb (String.eqb x) l = true.
Proof.
  intros H. apply existsb_exists. exists x. split; [done | apply String.eqb_refl].
Qed.

Lemma existsb_eqb_false (x : string) l :
  ~ In x l -> existsb (String.eqb x) l = false.
Proof.
  intros H. destruct (existsb (String.eqb x) l) eqn:E; [|done].
  apply existsb_exists in E as (y & Hy & Heq).
  apply String.eqb_eq in Heq as <-. done.
Qed.

End UploadPhase.

(** The steps of [ingest_data] from the split of the pages to the listing
    of the indexes, for a job that has chunks and a key. *)
Ltac ingest_to_listing Hkey Hk :=
  rewrite Hkey; unfold not_set; rewrite Hk; simpl negb; cbv iota;
  unfold bind at 1; unfold print at 1, emit at 1;
  unfold bind at 1; unfold print at 1, emit at 1;
  unfold bind at 1; unfold emit at 1;
  unfold bind at 1; unfold lift at 1.

(** Filters of a trace built by appending, with [t1] the trace after the
    sample print. *)
Ltac count_events Ht1 :=
  let lines := fresh "lines" in
  destruct (sample_print_inv _ _ _ Ht1) as [lines ->];
  unfold uploads, creations, sleeps;
  rewrite ?List.filter_app, ?filter_prints, ?polling_uploads,
    ?polling_creations by done;
  cbn [List.filter is_upload is_create is_sleep app];
  rewrite ?app_nil_r; try reflexivity.

(** X12.  With the vector-index key set, a job that finds pages and chunks
    calls [from_documents] at most once, with all the chunks and the
    configured index name.  It does so exactly when the client is built,
    the indexes are listed, and the index is there or is created (once,
    with dimension 768 and the cosine metric) and reported ready after its
    not-ready polls, each followed by one sleep; the outcome of the job is
    then the outcome of [from_documents].  When the client constructor or
    the listing raises, or the creation or the readiness poll raises, the
    job raises that exception and [from_documents] is not called. *)
Theorem ingest_data_uploads_once (c : Ingest.Config) (w : Ingest.World)
    (key : string) (docs docs' chunks : list Document) (t : list Event) :
  Ingest.PINECONE_API_KEY c = Some key -> PyStr.truthy key = true ->
  Ingest.data_dir_exists w = true ->
  Ingest.pdf_files w <> [] ->
  Ingest.loader_load w = Ok docs -> docs <> [] ->
  fst (Ingest.enrich_metadata w docs []) = Ok docs' ->
  Ingest.split_documents w docs' = Ok chunks -> chunks <> [] ->
  let index := Ingest.INDEX_NAME c in
  (forall e,
     Ingest.pinecone_client w key = Raise e
     \/ (Ingest.pinecone_client w key = Ok tt /\ Ingest.list_indexes w = Raise e) ->
     exists t', Ingest.ingest_data c w t = (Raise e, t')
                /\ uploads t' = uploads t)
  /\ (forall names,
        Ingest.pinecone_client w key = Ok tt ->
        Ingest.list_indexes w = Ok names -> In index names ->
        exists t',
          Ingest.ingest_data c w t = (Ingest.from_documents w chunks index, t')
          /\ uploads t' = (uploads t ++ [EUpload (length chunks) index])%list
          /\ creations t' = creations t)
  /\ (forall names,
        Ingest.pinecone_client w key = Ok tt ->
        Ingest.list_indexes w = Ok names -> ~ In index names ->
        Ingest.create_index w index = Ok tt -> Ingest.ready_poll w = Ok tt ->
        exists t',
          Ingest.ingest_data c w t = (Ingest.from_documents w chunks index, t')
          /\ uploads t' = (uploads t ++ [EUpload (length chunks) index])%list
          /\ creations t'
             = (creations t ++ [ECreateIndex index 768 "cosine" "aws" "us-east-1"])%list
          /\ length (sleeps t') = length (sleeps t) + Ingest.not_ready_polls w)
  /\ (forall names e,
        Ingest.pinecone_client w key = Ok tt ->
        Ingest.list_indexes w = Ok names -> ~ In index names ->
        Ingest.create_index w index = Raise e
        \/ (Ingest.create_index w index = Ok tt /\ Ingest.ready_poll w = Raise e) ->
        exists t', Ingest.ingest_data c w t = (Raise e, t')
                   /\ uploads t' = uploads t).
Proof.
  intros Hkey Hk Hdir Hpdf Hload Hdocs Henrich Hsplit Hchunks index.
  destruct docs as [|d ds]; [done|].
  destruct chunks as [|ch chs]; [done|].
  subst index. repeat split.
  - intros e [Hc|[Hc Hl]].
    + ingest_to_split Hdir Hload Henrich Hsplit. ingest_to_listing Hkey Hk.
      rewrite Hc. eexists. split; [reflexivity|]. count_events Ht1.
    + ingest_to_split Hdir Hload Henrich Hsplit. ingest_to_listing Hkey Hk.
      rewrite Hc. unfold bind at 1, emit at 1. unfold bind at 1, lift at 1.
      rewrite Hl. eexists. split; [reflexivity|]. count_events Ht1.
  - intros names Hc Hl Hin.
    ingest_to_split Hdir Hload Henrich Hsplit. ingest_to_listing Hkey Hk.
    rewrite Hc. unfold bind at 1, emit at 1. unfold bind at 1, lift at 1.
    rewrite Hl. rewrite (existsb_eqb_true _ _ Hin). simpl negb. cbv iota.
    unfold bind at 1; unfold print at 1, emit at 1.
    unfold bind at 1; unfold print at 1, emit at 1.
    unfold bind at 1; unfold print at 1, emit at 1.
    unfold bind at 1; unfold emit at 1.
    unfold bind at 1; unfold lift at 1.
    destruct (Ingest.from_documents w (ch :: chs) (Ingest.INDEX_NAME c))
      as [[]|e]; [rewrite print_all_run|];
      (eexists; split; [reflexivity|]); split; count_events Ht1.
  - intros names Hc Hl Hin Hcreate Hready.
    ingest_to_split Hdir Hload Henrich Hsplit. ingest_to_listing Hkey Hk.
    rewrite Hc. unfold bind at 1, emit at 1. unfold bind at 1, lift at 1.
    rewrite Hl. rewrite (existsb_eqb_false _ _ Hin). simpl negb. cbv iota.
    unfold bind at 1. unfold bind at 1; unfold print at 1, emit at 1.
    unfold bind at 1; unfold emit at 1.
    unfold bind at 1; unfold lift at 1. rewrite Hcreate.
    unfold bind at 1; unfold print at 1, emit at 1.
    unfold bind at 1. rewrite wait_ready_run, Hready.
    unfold print at 1, emit at 1.
    unfold bind at 1; unfold print at 1, emit at 1.
    unfold bind at 1; unfold print at 1, emit at 1.
    unfold bind at 1; unfold emit at 1.
    unfold bind at 1; unfold lift at 1.
    destruct (Ingest.from_documents w (ch :: chs) (Ingest.INDEX_NAME c))
      as [[]|e]; [rewrite print_all_run|];
      (eexists; split; [reflexivity|]); repeat split; count_events Ht1;
      rewrite ?length_app, polling_sleeps; cbn [length]; lia.
  - intros names e Hc Hl Hin [Hcreate|[Hcreate Hready]].
    + ingest_to_split Hdir Hload Henrich Hsplit. ingest_to_listing Hkey Hk.
      rewrite Hc. unfold bind at 1, emit at 1. unfold bind at 1, lift at 1.
      rewrite Hl. rewrite (existsb_eqb_false _ _ Hin). simpl negb. cbv iota.
      unfold bind at 1. unfold bind at 1; unfold print at 1, emit at 1.
      unfold bind at 1; unfold emit at 1.
      unfold bind at 1; unfold lift at 1. rewrite Hcreate.
      eexists. split; [reflexivity|]. count_events Ht1.
    + ingest_to_split Hdir Hload Henrich Hsplit. ingest_to_listing Hkey Hk.
      rewrite Hc. unfold bind at 1, emit at 1. unfold bind at 1, lift at 1.
      rewrite Hl. rewrite (existsb_eqb_false _ _ Hin). simpl negb. cbv iota.
      unfold bind at 1. unfold bind at 1; unfold print at 1, emit at 1.
      unfold bind at 1; unfold emit at 1.
      unfold bind at 1; unfold lift at 1. rewrite Hcreate.
      unfold bind at 1; unfold print at 1, emit at 1.
      unfold bind at 1. rewrite wait_ready_run, Hready.
      eexists. split; [reflexivity|]. count_events Ht1.
Qed.

Lemma ingest_data_uploads_once_witness :
  exists t',
    Ingest.ingest_data StartupFixtures.config_both_keys
      StartupFixtures.world_new_index []
    = (Ok tt, t')
    /\ uploads t' = (uploads [] ++ [EUpload 1 "steel-index"])%list
    /\ creations t'
       = (creations []
          ++ [ECreateIndex "steel-index" 768 "cosine" "aws" "us-east-1"])%list
    /\ length (sleeps t') = length (sleeps []) + 2.
Proof.
  destruct (ingest_data_uploads_once StartupFixtures.config_both_keys
              StartupFixtures.world_new_index "p-key"
              [StartupFixtures.page_a106]
              [StartupFixtures.page_a106_enriched]
              [StartupFixtures.page_a106_enriched] [])
    as (_ & _ & H & _); try reflexivity; try discriminate.
  apply (H ["other-index"]); try reflexivity.
  intros [E|[]]; discriminate.
Defined.

(** ** The tool adapter, tool by tool *)

Section ToolRuns.

Variable HAS_REAL_BACKEND : bool.
Variable similarity_search : string -> nat -> Res (list Document).
Variable llm_invoke : list Message -> Res Message.
Variable get_demo_response : string -> Res Agent.AgentResult.
Variable vectorstore_list_documents : option (Res (list (gmap string MetaVal))).

Local Abbreviation call_tool :=
  (McpServer.call_tool HAS_REAL_BACKEND similarity_search llm_invoke
     get_demo_response vectorstore_list_documents).
Local Abbreviation answer :=
  (McpServer.answer HAS_REAL_BACKEND similarity_search llm_invoke
     get_demo_response).

Lemma string_app_assoc (a b c : string) : (a +:+ b) +:+ c = a +:+ b +:+ c.
Proof.
  induction a as [|x a IH]; [done|].
  change (String x ((a +:+ b) +:+ c) = String x (a +:+ b +:+ c)). by f_equal.
Qed.

Lemma string_app_nil_r (a : string) : a +:+ "" = a.
Proof.
  induction a as [|x a IH]; [done|].
  change (String x (a +:+ "") = String x a). by f_equal.
Qed.

Lemma fold_source_lines srcs : forall out,
  fold_left (fun o s => o +:+ McpServer.source_line s) srcs out
  = out +:+ String.concat "" (map McpServer.source_line srcs).
Proof.
  induction srcs as [|s rest IH]; intros out.
  - simpl. by rewrite string_app_nil_r.
  - cbn [fold_left map]. rewrite IH, string_app_assoc. f_equal.
    destruct rest; simpl; [by rewrite string_app_nil_r | done].
Qed.

Lemma with_sources_concat out heading srcs :
  McpServer.with_sources out heading srcs
  = out +:+ match srcs with
            | [] => ""
            | _ => heading +:+ PyStr.nl
                   +:+ String.concat "" (map McpServer.source_line srcs)
            end.
Proof.
  unfold McpServer.with_sources. destruct srcs as [|s rest].
  - by rewrite string_app_nil_r.
  - by rewrite fold_source_lines, !string_app_assoc.
Qed.

Lemma source_line_citation j doc :
  McpServer.source_line (Agent.make_source j doc) = citation_line j doc.
Proof.
  unfold McpServer.source_line, citation_line, Agent.make_source.
  cbn [Agent.ref Agent.document Agent.page].
  by destruct (metadata doc !! "source"), (metadata doc !! "page").
Qed.

Lemma source_lines_citations docs : forall i,
  map McpServer.source_line (citations_from i docs)
  = imap (fun j => citation_line (i + j)) docs.
Proof.
  induction docs as [|doc rest IH]; intros i; [done|].
  rewrite citations_from_cons. cbn [map imap].
  rewrite source_line_citation, IH, Nat.add_0_r. f_equal.
  apply imap_ext. intros j d _. simpl. by rewrite Nat.add_succ_r.
Qed.

Lemma with_sources_block out heading docs :
  McpServer.with_sources out heading (citations_from 0 docs)
  = out +:+ sources_block heading docs.
Proof.
  rewrite with_sources_concat. unfold sources_block.
  destruct docs as [|d ds]; [done|].
  rewrite citations_from_cons. rewrite <- citations_from_cons.
  by rewrite (source_lines_citations (d :: ds) 0).
Qed.

Lemma query_steel_specs_run arguments :
  call_tool "query_steel_specs" arguments
  = (do result <- answer (default "" (McpServer.arg_query arguments));
     McpServer.text_result
       (McpServer.with_sources
          ("**Response:**" +:+ PyStr.nl +:+ Agent.response result
           +:+ PyStr.nl +:+ PyStr.nl)
          "**Sources:**" (Agent.result_sources result))).
Proof. reflexivity. Qed.

Lemma check_compliance_run arguments :
  call_tool "check_compliance" arguments
  = (do result <- answer (compliance_query arguments);
     McpServer.text_result
       (McpServer.with_sources
          ("**Compliance Check: " +:+ default "" (McpServer.arg_material arguments)
           +:+ " vs " +:+ default "" (McpServer.arg_standard arguments)
           +:+ "**" +:+ PyStr.nl +:+ PyStr.nl +:+ Agent.response result
           +:+ PyStr.nl +:+ PyStr.nl)
          "**Reference Documents:**" (Agent.result_sources result))).
Proof.
  unfold McpServer.call_tool, compliance_query.
  change ("check_compliance" =? "query_steel_specs")%string with false.
  change ("check_compliance" =? "check_compliance")%string with true.
  cbv iota.
  destruct (default "" (McpServer.arg_requirements arguments)) as [|a r].
  - simpl PyStr.truthy. cbv iota. by rewrite !string_app_assoc.
  - simpl PyStr.truthy. cbv iota. by rewrite !string_app_assoc.
Qed.

End ToolRuns.

Section ToolReplies.

Variable HAS_REAL_BACKEND : bool.
Variable similarity_search : string -> nat -> Res (list Document).
Variable llm_invoke : list Message -> Res Message.
Variable get_demo_response : string -> Res Agent.AgentResult.
Variable vectorstore_list_documents : option (Res (list (gmap string MetaVal))).

Local Abbreviation call_tool :=
  (McpServer.call_tool HAS_REAL_BACKEND similarity_search llm_invoke
     get_demo_response vectorstore_list_documents).
Local Abbreviation answer :=
  (McpServer.answer HAS_REAL_BACKEND similarity_search llm_invoke
     get_demo_response).

Lemma with_sources_head a out heading srcs :
  exists rest, McpServer.with_sources (String a out) heading srcs = String a rest.
Proof. rewrite with_sources_concat. simpl. eauto. Qed.

Lemma answered_headed a (q : string) (out : Agent.AgentResult -> string)
    heading t :
  headed a
    (fst ((do result <- answer q;
           McpServer.text_result
             (McpServer.with_sources (String a (out result)) heading
                (Agent.result_sources result))) t)).
Proof.
  unfold bind. destruct (answer q t) as [[r|e] t']; [|by left].
  destruct (with_sources_head a (out r) heading (Agent.result_sources r))
    as [rest Hrest].
  right. unfold McpServer.text_result, ret. simpl. by rewrite Hrest.
Qed.

Lemma documents_loop_head a docs : forall out t,
  match fst (McpServer.documents_loop docs (String a out) t) with
  | Ok s => exists rest, s = String a rest
  | Raise _ => True
  end.
Proof.
  induction docs as [|doc rest IH]; intros out t; simpl.
  - eauto.
  - unfold bind. destruct (McpServer.getitem doc "name" t) as [[v|e] t']; [|done].
    apply IH.
Qed.

End ToolReplies.

(** X13.  A tool name that [list_tools] does not announce gets the reply
    "Unknown tool: <name>", and nothing is called: the trace is unchanged.
    This includes [ingest_document], which the module's header mentions. *)
Theorem unknown_tool_reply
    (HAS_REAL_BACKEND : bool)
    (similarity_search : string -> nat -> Res (list Document))
    (llm_invoke : list Message -> Res Message)
    (get_demo_response : string -> Res Agent.AgentResult)
    (vectorstore_list_documents : option (Res (list (gmap string MetaVal))))
    (name : string) (arguments : McpServer.Arguments) (t : list Event) :
  ~ In name (map McpTools.name McpTools.list_tools) ->
  McpServer.call_tool HAS_REAL_BACKEND similarity_search llm_invoke
    get_demo_response vectorstore_list_documents name arguments t
  = (Ok (unknown_tool name), t).
Proof.
  intros Hname. simpl in Hname. unfold McpServer.call_tool.
  repeat match goal with
  | |- context [ String.eqb name ?lit ] =>
      destruct (String.eqb_spec name lit) as [->|_]; [by destruct Hname; auto 10|]
  end.
  reflexivity.
Qed.

Lemma unknown_tool_reply_witness :
  McpServer.call_tool true Fixtures.index_two Fixtures.llm_answers
    (fun _ => Ok {| Agent.response := "demo"; Agent.result_sources := [] |})
    None "ingest_document"
    {| McpServer.arg_query := Some "ASTM_A106.pdf"; McpServer.arg_material := None;
       McpServer.arg_standard := None; McpServer.arg_requirements := None;
       McpServer.arg_materials := None; McpServer.arg_properties := None |} []
  = (Ok (unknown_tool "ingest_document"), []).
Proof.
  apply (unknown_tool_reply true Fixtures.index_two Fixtures.llm_answers
           (fun _ => Ok {| Agent.response := "demo"; Agent.result_sources := [] |})
           None "ingest_document").
  simpl. intros H. repeat (destruct H as [H|H]; [discriminate|]). exact H.
Defined.

(** X14.  Every tool that [list_tools] announces is handled by
    [call_tool]: whatever the arguments and the backend, its reply is never
    the "Unknown tool" text. *)
Theorem listed_tools_are_handled
    (HAS_REAL_BACKEND : bool)
    (similarity_search : string -> nat -> Res (list Document))
    (llm_invoke : list Message -> Res Message)
    (get_demo_response : string -> Res Agent.AgentResult)
    (vectorstore_list_documents : option (Res (list (gmap string MetaVal))))
    (tool : McpTools.Tool) (arguments : McpServer.Arguments) (t : list Event) :
  In tool McpTools.list_tools ->
  fst (McpServer.call_tool HAS_REAL_BACKEND similarity_search llm_invoke
         get_demo_response vectorstore_list_documents (McpTools.name tool)
         arguments t)
  <> Ok (unknown_tool (McpTools.name tool)).
Proof.
  intros Htool Heq.
  assert (Hhead : headed "*"
            (fst (McpServer.call_tool HAS_REAL_BACKEND similarity_search
                    llm_invoke get_demo_response vectorstore_list_documents
                    (McpTools.name tool) arguments t))
          \/ headed "E"
               (fst (McpServer.call_tool HAS_REAL_BACKEND similarity_search
                       llm_invoke get_demo_response vectorstore_list_documents
                       (McpTools.name tool) arguments t))).
  { simpl in Htool.
    destruct Htool as [<-|[<-|[<-|[<-|[<-|[]]]]]]; cbn [McpTools.name].
    - left. rewrite query_steel_specs_run. apply answered_headed.
    - left. rewrite check_compliance_run. apply answered_headed.
    - rewrite compare_materials_run.
      destruct (_ <? 2)%nat; [right; by right | left; apply answered_headed].
    - left. unfold McpServer.call_tool.
      change ("list_documents" =? "query_steel_specs")%string with false.
      change ("list_documents" =? "check_compliance")%string with false.
      change ("list_documents" =? "compare_materials")%string with false.
      change ("list_documents" =? "list_documents")%string with true.
      cbv iota. unfold bind at 1.
      match goal with
      | |- context [ match ?m t with _ => _ end ] =>
          destruct (m t) as [[docs|e] t']; [|by left]
      end.
      unfold bind.
      pose proof (documents_loop_head "*" docs
                    ("*Indexed Documents:**" +:+ PyStr.nl +:+ PyStr.nl) t') as H.
      change (String "*" ("*Indexed Documents:**" +:+ PyStr.nl +:+ PyStr.nl))
        with ("**Indexed Documents:**" +:+ PyStr.nl +:+ PyStr.nl) in H.
      destruct (McpServer.documents_loop docs _ t') as [[s|e] t'']; [|by left].
      simpl in H. destruct H as [rest ->]. by right.
    - left. by right. }
  rewrite Heq in Hhead. by destruct Hhead as [[|]|[|]].
Qed.

Lemma listed_tools_are_handled_witness :
  fst (McpServer.call_tool false Fixtures.index_two Fixtures.llm_answers
         (fun _ => Ok {| Agent.response := "demo"; Agent.result_sources := [] |})
         None "get_health"
         {| McpServer.arg_query := None; McpServer.arg_material := None;
            McpServer.arg_standard := None; McpServer.arg_requirements := None;
            McpServer.arg_materials := None; McpServer.arg_properties := None |} [])
  <> Ok (unknown_tool "get_health").
Proof.
  apply (listed_tools_are_handled false Fixtures.index_two Fixtures.llm_answers
           (fun _ => Ok {| Agent.response := "demo"; Agent.result_sources := [] |})
           None
           {| McpTools.name := "get_health";
              McpTools.description :=
                "Check the health status of the steel knowledge backend.";
              McpTools.properties := []; McpTools.required := [] |}).
  simpl. tauto.
Defined.

Section Avoids.

Variable P : Event -> bool.

Lemma avoids_ret {A} (a : A) : avoids P (ret a).
Proof. by intros t. Qed.

Lemma avoids_lift {A} (r : Res A) : avoids P (lift r).
Proof. by intros t. Qed.

Lemma avoids_raise {A} e : avoids P (@raise A e).
Proof. by intros t. Qed.

Lemma avoids_emit e : P e = false -> avoids P (emit e).
Proof.
  intros He t. unfold emit. simpl. rewrite List.filter_app. simpl.
  rewrite He. apply app_nil_r.
Qed.

Lemma avoids_bind {A B} (m : M A) (k : A -> M B) :
  avoids P m -> (forall a, avoids P (k a)) -> avoids P (bind m k).
Proof.
  intros Hm Hk t. unfold bind. specialize (Hm t).
  destruct (m t) as [[a|e] t']; simpl in *; [|done].
  by rewrite Hk.
Qed.

Lemma avoids_documents_loop docs : forall out,
  avoids P (McpServer.documents_loop docs out).
Proof.
  induction docs as [|doc rest IH]; intros out; simpl.
  - apply avoids_ret.
  - apply avoids_bind; [|intros v; apply IH].
    unfold McpServer.getitem. destruct (doc !! "name");
      [apply avoids_ret | apply avoids_raise].
Qed.

End Avoids.

(** X15.  In demo mode (no real backend) no tool call reaches the
    pipeline: whatever the tool name and the arguments, no similarity
    search and no call of the language model is made, and neither banner is
    printed. *)
Theorem demo_mode_avoids_pipeline
    (similarity_search : string -> nat -> Res (list Document))
    (llm_invoke : list Message -> Res Message)
    (get_demo_response : string -> Res Agent.AgentResult)
    (vectorstore_list_documents : option (Res (list (gmap string MetaVal))))
    (name : string) (arguments : McpServer.Arguments) :
  avoids is_pipeline
    (McpServer.call_tool false similarity_search llm_invoke
       get_demo_response vectorstore_list_documents name arguments).
Proof.
  assert (Hanswer : forall q,
            avoids is_pipeline
              (McpServer.answer false similarity_search llm_invoke
                 get_demo_response q)).
  { intros q. unfold McpServer.answer.
    apply avoids_bind; [by apply avoids_emit | intros _; apply avoids_lift]. }
  unfold McpServer.call_tool.
  repeat match goal with
  | |- context [ String.eqb name ?lit ] => destruct (String.eqb name lit)
  end.
  - apply avoids_bind; [apply Hanswer | intros r; apply avoids_ret].
  - apply avoids_bind; [apply Hanswer | intros r; apply avoids_ret].
  - destruct (_ <? 2)%nat; [apply avoids_ret|].
    apply avoids_bind; [apply Hanswer | intros r; apply avoids_ret].
  - apply avoids_bind; [apply avoids_ret | intros docs].
    apply avoids_bind; [apply avoids_documents_loop | intros s; apply avoids_ret].
  - apply avoids_ret.
  - apply avoids_ret.
Qed.

(** X16.  [call_tool] does not catch what the pipeline raises: with a real
    backend, a failure of the similarity search leaves [query_steel_specs]
    and [check_compliance] as that same exception, raised right after the
    search, with no reply built. *)
Theorem tool_errors_propagate
    (similarity_search : string -> nat -> Res (list Document))
    (llm_invoke : list Message -> Res Message)
    (get_demo_response : string -> Res Agent.AgentResult)
    (vectorstore_list_documents : option (Res (list (gmap string MetaVal))))
    (arguments : McpServer.Arguments) (t : list Event) :
  (forall e,
     similarity_search (default "" (McpServer.arg_query arguments)) 10 = Raise e ->
     McpServer.call_tool true similarity_search llm_invoke get_demo_response
       vectorstore_list_documents "query_steel_specs" arguments t
     = (Raise e,
        (t ++ retrieving (default "" (McpServer.arg_query arguments)))%list))
  /\ (forall e,
        similarity_search (compliance_query arguments) 10 = Raise e ->
        McpServer.call_tool true similarity_search llm_invoke get_demo_response
          vectorstore_list_documents "check_compliance" arguments t
        = (Raise e, (t ++ retrieving (compliance_query arguments))%list)).
Proof.
  split; intros e He.
  - rewrite query_steel_specs_run. unfold McpServer.answer, bind.
    by rewrite run_agent_run, He.
  - rewrite check_compliance_run. unfold McpServer.answer, bind.
    by rewrite run_agent_run, He.
Qed.

Lemma tool_errors_propagate_witness :
  McpServer.call_tool true Fixtures.index_down Fixtures.llm_answers
    (fun _ => Ok {| Agent.response := "demo"; Agent.result_sources := [] |})
    None "query_steel_specs"
    {| McpServer.arg_query := Some Fixtures.question;
       McpServer.arg_material := None;
       McpServer.arg_standard := None; McpServer.arg_requirements := None;
       McpServer.arg_materials := None; McpServer.arg_properties := None |} []
  = (Raise {| exc_type := "PineconeException"; exc_msg := "index unreachable" |},
     ([] ++ retrieving Fixtures.question)%list).
Proof.
  apply (tool_errors_propagate Fixtures.index_down Fixtures.llm_answers
           (fun _ => Ok {| Agent.response := "demo"; Agent.result_sources := [] |})
           None
           {| McpServer.arg_query := Some Fixtures.question;
              McpServer.arg_material := None;
              McpServer.arg_standard := None; McpServer.arg_requirements := None;
              McpServer.arg_materials := None; McpServer.arg_properties := None |}
           []).
  reflexivity.
Defined.

(** X17.  With a real backend and both services answering,
    [query_steel_specs] replies with the answer of the language model
    followed by the sources: nothing when no passage was retrieved, and
    otherwise the heading and one line per passage, in retrieval order, with
    its marker, its source name and its page label. *)
Theorem query_reply_lists_citations
    (similarity_search : string -> nat -> Res (list Document))
    (llm_invoke : list Message -> Res Message)
    (get_demo_response : string -> Res Agent.AgentResult)
    (vectorstore_list_documents : option (Res (list (gmap string MetaVal))))
    (arguments : McpServer.Arguments) (docs : list Document) (resp : Message)
    (t : list Event) :
  let q := default "" (McpServer.arg_query arguments) in
  similarity_search q 10 = Ok docs ->
  llm_invoke [HumanMessage (Agent.build_prompt (context_of docs) q)] = Ok resp ->
  McpServer.call_tool true similarity_search llm_invoke get_demo_response
    vectorstore_list_documents "query_steel_specs" arguments t
  = (Ok [ {| McpServer.type := "text";
             McpServer.text :=
               ("**Response:**" +:+ PyStr.nl +:+ content resp
                +:+ PyStr.nl +:+ PyStr.nl)
               +:+ sources_block "**Sources:**" docs |} ],
     (t ++ retrieving q ++ generating (context_of docs) q)%list).
Proof.
  intros q Hs Hl. rewrite query_steel_specs_run.
  unfold McpServer.answer, bind. fold q.
  rewrite run_agent_run, Hs, Hl. unfold McpServer.text_result, ret.
  cbn [Agent.response Agent.result_sources].
  by rewrite with_sources_block.
Qed.

Lemma query_reply_lists_citations_witness :
  McpServer.call_tool true Fixtures.index_two Fixtures.llm_answers
    (fun _ => Ok {| Agent.response := "demo"; Agent.result_sources := [] |})
    None "query_steel_specs"
    {| McpServer.arg_query := Some Fixtures.question;
       McpServer.arg_material := None;
       McpServer.arg_standard := None; McpServer.arg_requirements := None;
       McpServer.arg_materials := None; McpServer.arg_properties := None |} []
  = (Ok [ {| McpServer.type := "text";
             McpServer.text :=
               ("**Response:**" +:+ PyStr.nl
                +:+ "Grade B has a minimum yield strength of 35,000 psi [1]."
                +:+ PyStr.nl +:+ PyStr.nl)
               +:+ sources_block "**Sources:**"
                     [Fixtures.doc_a106; Fixtures.doc_bare] |} ],
     ([] ++ retrieving Fixtures.question
         ++ generating (context_of [Fixtures.doc_a106; Fixtures.doc_bare])
              Fixtures.question)%list).
Proof.
  apply (query_reply_lists_citations Fixtures.index_two Fixtures.llm_answers
           (fun _ => Ok {| Agent.response := "demo"; Agent.result_sources := [] |})
           None
           {| McpServer.arg_query := Some Fixtures.question;
              McpServer.arg_material := None;
              McpServer.arg_standard := None; McpServer.arg_requirements := None;
              McpServer.arg_materials := None; McpServer.arg_properties := None |}
           [Fixtures.doc_a106; Fixtures.doc_bare]
           (AIMessage "Grade B has a minimum yield strength of 35,000 psi [1].")
           []); reflexivity.
Defined.

(** ** The index name *)

(** X18.  The ingestion job and the agent use the same index: the name
    that [agent.py] hands to the vector store is the [INDEX_NAME] of
    [ingest.py] for the same environment, [PINECONE_INDEX_NAME] when it is
    set and "steel-index" otherwise. *)
Theorem index_name_agrees
    (Embeddings : Type)
    (ChatGoogleGenerativeAI : gmap string string -> Res (list Message -> Res Message))
    (GoogleGenerativeAIEmbeddings : gmap string string -> Res Embeddings)
    (PineconeVectorStore : gmap string string -> string -> Embeddings ->
                           Res (string -> nat -> Res (list Document)))
    (environ : gmap string string) (c : Ingest.Config) (t : list Event) :
  Ingest.load environ t = (Ok c, t) ->
  Ingest.INDEX_NAME c = default "steel-index" (environ !! "PINECONE_INDEX_NAME")
  /\ AgentInit.load Embeddings ChatGoogleGenerativeAI GoogleGenerativeAIEmbeddings
       PineconeVectorStore environ t
     = AgentInit.load Embeddings ChatGoogleGenerativeAI GoogleGenerativeAIEmbeddings
         (fun env _ embeddings =>
            PineconeVectorStore env (Ingest.INDEX_NAME c) embeddings)
         environ t.
Proof.
  unfold Ingest.load, AgentInit.load.
  destruct (not_set (environ !! "GOOGLE_API_KEY")); [discriminate|].
  intros H. injection H as <-. done.
Qed.

Lemma index_name_agrees_witness :
  Ingest.INDEX_NAME
    {| Ingest.GOOGLE_API_KEY := Some "g-key"; Ingest.PINECONE_API_KEY := None;
       Ingest.INDEX_NAME := "steel-index" |}
  = default "steel-index"
      (StartupFixtures.environ_no_pinecone !! "PINECONE_INDEX_NAME").
Proof.
  apply (index_name_agrees unit StartupFixtures.make_llm
           StartupFixtures.make_embeddings StartupFixtures.make_vectorstore
           StartupFixtures.environ_no_pinecone _ []).
  reflexivity.
Defined.
